(** * instructor/batch.py: batch request writer and batch result parser

    A shallow embedding of [src/instructor/batch.py] and the properties of
    its tool classification, request envelope, batch writer and batch
    result parser.

    Python values are embedded as follows.
    - [str] is a sequence of Unicode code points ([list N]); [lit] embeds
      an ASCII literal of the source.
    - The values that [json.loads] produces, and the keyword dictionaries
      that are passed around, are [json] trees; a [dict] is an association
      list in insertion order with distinct keys.
    - A raised exception is the [Raise] case of [result]; [try/except
      Exception] is a [match] on it.
    - Library functions the module calls but does not define
      ([json.loads], the caller's [response_model], pydantic's scalar
      coercions and JSON writer, [handle_response_model], [uuid.uuid4],
      [file.write]) are [Variable]s of the sections below; the JSON
      writer and [file.write] can raise. *)

From Stdlib Require Import String Ascii ZArith NArith Bool Arith Lia.
From Stdlib Require Import PrimFloat Uint63 FloatOps SpecFloat List.
Import ListNotations.

Set Warnings "-register-all".
Set Implicit Arguments.

(** ** Python strings *)

Module Py.

Definition str := list N.

Definition lit (s : string) : str :=
  List.map N_of_ascii (list_ascii_of_string s).

Fixpoint str_eqb (a b : str) : bool :=
  match a, b with
  | [], [] => true
  | x :: a', y :: b' => N.eqb x y && str_eqb a' b'
  | _, _ => false
  end.

Lemma str_eqb_eq (a b : str) : str_eqb a b = true <-> a = b.
Proof.
  revert b. induction a as [|x a IH]; intros [|y b]; cbn; try easy.
  rewrite andb_true_iff, N.eqb_eq, IH. split.
  - now intros [-> ->].
  - now intros [= -> ->].
Qed.

Lemma str_eqb_refl (a : str) : str_eqb a a = true.
Proof. now apply str_eqb_eq. Qed.

(** [p] is an initial segment of [s]. *)
Fixpoint startswith (s p : str) {struct p} : bool :=
  match p, s with
  | [], _ => true
  | a :: p', b :: s' => N.eqb a b && startswith s' p'
  | _ :: _, [] => false
  end.

(** [p in s] for two strings: substring search. *)
Fixpoint str_in (p s : str) : bool :=
  startswith s p ||
  match s with
  | [] => false
  | _ :: s' => str_in p s'
  end.

(** [str.lower()] on the ASCII letters.  CPython also maps the cased code
    points above 127 to their lowercase forms; those are left in place
    here (none of them lowers to a letter of the marker searched for in
    [create_from_messages]). *)
Definition lower_char (c : N) : N :=
  if (65 <=? c)%N && (c <=? 90)%N then (c + 32)%N else c.

Definition lower (s : str) : str := List.map lower_char s.

(** The line boundaries of [str.splitlines()]: LF, VT, FF, CR, FS, GS, RS,
    NEL, LINE SEPARATOR and PARAGRAPH SEPARATOR (and CR LF as one). *)
Definition is_linebreak (c : N) : bool :=
  existsb (N.eqb c) [10; 11; 12; 13; 28; 29; 30; 133; 8232; 8233]%N.

(** Put [c] in front of the first line of [ls]. *)
Definition cons_first (c : N) (ls : list str) : list str :=
  match ls with
  | [] => [[c]]
  | l :: t => (c :: l) :: t
  end.

(** [s.splitlines()]: the lines of [s] without their terminators; a
    terminator at the very end opens no further line. *)
Fixpoint splitlines (s : str) : list str :=
  match s with
  | [] => []
  | c :: r =>
      if N.eqb c 13 then
        match r with
        | 10%N :: r' => [] :: splitlines r'
        | _ => [] :: splitlines r
        end
      else if is_linebreak c then [] :: splitlines r
      else cons_first c (splitlines r)
  end.

(** Iterating over a file opened with [open(path)]: text mode with
    universal newlines.  Lines end at LF, CR or CR LF only, the terminator
    is kept and is always delivered as LF. *)
Fixpoint file_lines (s : str) : list str :=
  match s with
  | [] => []
  | c :: r =>
      if N.eqb c 10 then [10%N] :: file_lines r
      else if N.eqb c 13 then
        match r with
        | 10%N :: r' => [10%N] :: file_lines r'
        | _ => [10%N] :: file_lines r
        end
      else cons_first c (file_lines r)
  end.

(** ** Exceptions *)

Inductive exn :=
| KeyError | IndexError | TypeError | ValueError
| ValidationError | JSONDecodeError.

Inductive result (A : Type) :=
| Ok (a : A)
| Raise (e : exn).

Arguments Ok {A} a.
Arguments Raise {A} e.

Definition bind {A B} (m : result A) (k : A -> result B) : result B :=
  match m with
  | Ok a => k a
  | Raise e => Raise e
  end.

Definition is_ok {A} (m : result A) : bool :=
  match m with Ok _ => true | Raise _ => false end.

End Py.

Import Py.

Notation "x <- m ;; k" := (bind m (fun x => k))
  (at level 61, m at next level, right associativity).

(** ** JSON values and dictionaries *)

Inductive json :=
| JNull
| JBool (b : bool)
| JInt (z : Z)
| JFloat (f : float)
| JStr (s : str)
| JArr (l : list json)
| JObj (d : list (str * json)).

Definition dict := list (str * json).

Module Dict.

Fixpoint get (k : str) (d : dict) : option json :=
  match d with
  | [] => None
  | (k', v) :: d' => if str_eqb k k' then Some v else get k d'
  end.

Definition mem (k : str) (d : dict) : bool :=
  match get k d with Some _ => true | None => false end.

(** [d[k] = v]: an existing key keeps its position. *)
Fixpoint set (k : str) (v : json) (d : dict) : dict :=
  match d with
  | [] => [(k, v)]
  | (k', v') :: d' =>
      if str_eqb k k' then (k, v) :: d' else (k', v') :: set k v d'
  end.

Fixpoint remove (k : str) (d : dict) : dict :=
  match d with
  | [] => []
  | (k', v) :: d' => if str_eqb k k' then d' else (k', v) :: remove k d'
  end.

(** [d.pop(k)]: [KeyError] when [k] is absent. *)
Definition pop (k : str) (d : dict) : result (json * dict) :=
  match get k d with
  | Some v => Ok (v, remove k d)
  | None => Raise KeyError
  end.

Definition keys (d : dict) : list str := List.map fst d.

Lemma get_app_other (k k' : str) (v : json) (d : dict) :
  str_eqb k k' = false -> get k (d ++ [(k', v)]) = get k d.
Proof.
  intros Hk. induction d as [|[k0 v0] d IH]; cbn.
  - now rewrite Hk.
  - now destruct (str_eqb k k0).
Qed.

Lemma get_app_absent (k : str) (v : json) (d : dict) :
  get k d = None -> get k (d ++ [(k, v)]) = Some v.
Proof.
  induction d as [|[k0 v0] d IH]; cbn.
  - now rewrite str_eqb_refl.
  - now destruct (str_eqb k k0).
Qed.

End Dict.

(** ** Subscripting and membership on decoded values *)

(** One step of a subscript chain: [x["k"]] or [x[0]]. *)
Inductive sub :=
| K (k : string)
| I0.

(** [x[k]] for a string [k].  Only a dict accepts a string subscript. *)
Definition getitem (x : json) (k : str) : result json :=
  match x with
  | JObj d =>
      match Dict.get k d with
      | Some v => Ok v
      | None => Raise KeyError
      end
  | _ => Raise TypeError
  end.

(** [x[0]].  A list and a string are indexed by position; a decoded dict
    has string keys only, so 0 is never one of them. *)
Definition getitem0 (x : json) : result json :=
  match x with
  | JArr (v :: _) => Ok v
  | JArr [] => Raise IndexError
  | JStr (c :: _) => Ok (JStr [c])
  | JStr [] => Raise IndexError
  | JObj _ => Raise KeyError
  | _ => Raise TypeError
  end.

Definition getsub (x : json) (s : sub) : result json :=
  match s with
  | K k => getitem x (lit k)
  | I0 => getitem0 x
  end.

(** A chain of subscripts, evaluated left to right. *)
Fixpoint getpath (x : json) (p : list sub) : result json :=
  match p with
  | [] => Ok x
  | s :: p' => y <- getsub x s ;; getpath y p'
  end.

(** [k in x] for a string [k]: key membership on a dict, element
    membership on a list, substring search on a string; the other values
    are not iterable. *)
Definition contains (k : str) (x : json) : result bool :=
  match x with
  | JObj d => Ok (Dict.mem k d)
  | JArr l =>
      Ok (existsb (fun v => match v with
                            | JStr s => str_eqb s k
                            | _ => false
                            end) l)
  | JStr s => Ok (str_in k s)
  | _ => Raise TypeError
  end.

(** [for x in v]: the elements of a list, the keys of a dict, the
    characters of a string. *)
Definition iterate (v : json) : result (list json) :=
  match v with
  | JArr l => Ok l
  | JObj d => Ok (List.map (fun kv => JStr (fst kv)) d)
  | JStr s => Ok (List.map (fun c => JStr [c]) s)
  | _ => Raise TypeError
  end.

(** ** Lines of a text: [splitlines] against file iteration *)

(** No line boundary of [splitlines] other than LF and CR occurs. *)
Definition only_newlines (s : str) : bool :=
  forallb (fun c => negb (is_linebreak c) || N.eqb c 10 || N.eqb c 13) s.

(** A line of the file and the same line as [splitlines] gives it: equal
    up to the terminator that the file keeps. *)
Definition same_line (file_line line : str) : Prop :=
  file_line = line \/ file_line = line ++ [10%N].

Lemma lf_head_dec (r : str) :
  {r' | r = 10%N :: r'} + {forall r', r <> 10%N :: r'}.
Proof.
  destruct r as [|c r']; [right; intros r' [=]|].
  destruct (N.eq_dec c 10) as [->|Hc].
  - left. now exists r'.
  - right. intros r'' [= -> _]. now apply Hc.
Qed.

Ltac split_on_lf :=
  repeat match goal with
         | |- context [match ?p with _ => _ end] =>
             destruct p; try reflexivity; try congruence
         end.

Lemma splitlines_cr (r : str) :
  (forall r', r <> 10%N :: r') -> splitlines (13%N :: r) = [] :: splitlines r.
Proof.
  intros H. destruct r as [|c r']; [reflexivity|].
  assert (Hc : c <> 10%N) by (intros ->; now apply (H r')).
  cbn [splitlines N.eqb Pos.eqb]. split_on_lf.
Qed.

Lemma file_lines_cr (r : str) :
  (forall r', r <> 10%N :: r') ->
  file_lines (13%N :: r) = [10%N] :: file_lines r.
Proof.
  intros H. destruct r as [|c r']; [reflexivity|].
  assert (Hc : c <> 10%N) by (intros ->; now apply (H r')).
  cbn [file_lines N.eqb Pos.eqb]. split_on_lf.
Qed.

Lemma cons_first_same (c : N) (fls ls : list str) :
  Forall2 same_line fls ls ->
  Forall2 same_line (cons_first c fls) (cons_first c ls).
Proof.
  intros [|fl l fls' ls' [->| ->] Hrest]; cbn.
  - constructor; [now left | constructor].
  - constructor; [now left | assumption].
  - constructor; [now right | assumption].
Qed.

Lemma lines_agree_upto (n : nat) :
  forall s, List.length s <= n -> only_newlines s = true ->
            Forall2 same_line (file_lines s) (splitlines s).
Proof.
  induction n as [|n IH]; intros s Hlen Hs.
  - destruct s; [constructor | cbn in Hlen; lia].
  - destruct s as [|c r]; [constructor|].
    cbn in Hlen. cbn [only_newlines forallb] in Hs.
    apply andb_true_iff in Hs as [Hc Hr]. fold (only_newlines r) in Hr.
    destruct (N.eq_dec c 10) as [->|H10].
    + cbn. constructor; [now right | apply IH; [lia | assumption]].
    + destruct (N.eq_dec c 13) as [->|H13].
      * destruct (lf_head_dec r) as [[r' ->]|Hno].
        -- cbn in Hr, Hlen. cbn.
           constructor; [now right | apply IH; [lia | assumption]].
        -- rewrite splitlines_cr, file_lines_cr by assumption.
           constructor; [now right | apply IH; [lia | assumption]].
      * apply N.eqb_neq in H10, H13.
        rewrite H10, H13, !orb_false_r in Hc. apply negb_true_iff in Hc.
        cbn [file_lines splitlines]. rewrite H10, H13, Hc.
        apply cons_first_same, IH; [lia | assumption].
Qed.

Lemma lines_agree (s : str) :
  only_newlines s = true -> Forall2 same_line (file_lines s) (splitlines s).
Proof. now apply (lines_agree_upto (n := List.length s)). Qed.

(** *** A text that ends in a line feed, followed by more text *)

Lemma cons_first_app (c : N) (ls ls' : list str) :
  ls <> [] -> cons_first c (ls ++ ls') = cons_first c ls ++ ls'.
Proof. now destruct ls. Qed.

Lemma cons_first_nonempty (c : N) (ls : list str) : cons_first c ls <> [].
Proof. now destruct ls. Qed.

Lemma splitlines_nonempty (c : N) (r : str) : splitlines (c :: r) <> [].
Proof.
  cbn [splitlines]. destruct (N.eqb c 13).
  - destruct (lf_head_dec r) as [[r' ->]|Hno]; [easy|].
    destruct r as [|c' r']; [easy|].
    assert (Hc : c' <> 10%N) by (intros ->; now apply (Hno r')).
    intros H. revert H. split_on_lf.
  - destruct (is_linebreak c); [easy | apply cons_first_nonempty].
Qed.

Lemma file_lines_nonempty (c : N) (r : str) : file_lines (c :: r) <> [].
Proof.
  cbn [file_lines]. destruct (N.eqb c 10); [easy|].
  destruct (N.eqb c 13); [|apply cons_first_nonempty].
  destruct (lf_head_dec r) as [[r' ->]|Hno]; [easy|].
  destruct r as [|c' r']; [easy|].
  assert (Hc : c' <> 10%N) by (intros ->; now apply (Hno r')).
  intros H. revert H. split_on_lf.
Qed.

Lemma splitlines_app_lf_upto (b : str) (n : nat) :
  forall a,
    List.length a <= n ->
    splitlines (a ++ 10%N :: b) = splitlines (a ++ [10%N]) ++ splitlines b.
Proof.
  induction n as [|n IH]; intros a Hlen.
  - destruct a; [reflexivity | cbn in Hlen; lia].
  - destruct a as [|c r]; [reflexivity|]. cbn in Hlen.
    destruct (N.eq_dec c 13) as [->|H13].
    + destruct r as [|c' r']; [reflexivity|].
      destruct (N.eq_dec c' 10) as [->|H10].
      * cbn in Hlen. cbn. f_equal. apply IH. lia.
      * cbn [app]. rewrite !splitlines_cr by (intros r'' [= E _]; congruence).
        cbn [app]. f_equal. apply (IH (c' :: r')). lia.
    + apply N.eqb_neq in H13. cbn [app splitlines]. rewrite H13.
      destruct (is_linebreak c).
      * cbn [app]. f_equal. apply IH. lia.
      * rewrite IH by lia. apply cons_first_app.
        destruct r; [easy | apply splitlines_nonempty].
Qed.

Lemma splitlines_app_lf (a b : str) :
  splitlines ((a ++ [10%N]) ++ b) = splitlines (a ++ [10%N]) ++ splitlines b.
Proof.
  rewrite <- app_assoc. cbn [app].
  now apply (splitlines_app_lf_upto b (n := List.length a)).
Qed.

Lemma file_lines_app_lf_upto (b : str) (n : nat) :
  forall a,
    List.length a <= n ->
    file_lines (a ++ 10%N :: b) = file_lines (a ++ [10%N]) ++ file_lines b.
Proof.
  induction n as [|n IH]; intros a Hlen.
  - destruct a; [reflexivity | cbn in Hlen; lia].
  - destruct a as [|c r]; [reflexivity|]. cbn in Hlen.
    destruct (N.eq_dec c 13) as [->|H13].
    + destruct r as [|c' r']; [reflexivity|].
      destruct (N.eq_dec c' 10) as [->|H10].
      * cbn in Hlen. cbn. f_equal. apply IH. lia.
      * cbn [app]. rewrite !file_lines_cr by (intros r'' [= E _]; congruence).
        cbn [app]. f_equal. apply (IH (c' :: r')). lia.
    + apply N.eqb_neq in H13. cbn [app file_lines]. rewrite H13.
      destruct (N.eqb c 10).
      * cbn [app]. f_equal. apply IH. lia.
      * rewrite IH by lia. apply cons_first_app.
        destruct r; [easy | apply file_lines_nonempty].
Qed.

Lemma file_lines_app_lf (a b : str) :
  file_lines ((a ++ [10%N]) ++ b) = file_lines (a ++ [10%N]) ++ file_lines b.
Proof.
  rewrite <- app_assoc. cbn [app].
  now apply (file_lines_app_lf_upto b (n := List.length a)).
Qed.

Lemma splitlines_final_lf_upto (c : N) (n : nat) :
  is_linebreak c = false ->
  forall a, List.length a <= n ->
            splitlines (a ++ [c; 10%N]) = splitlines (a ++ [c]).
Proof.
  intros Hc.
  assert (H13 : N.eqb c 13 = false).
  { destruct (N.eqb c 13) eqn:E; [|reflexivity].
    apply N.eqb_eq in E. subst. discriminate. }
  assert (H10 : c <> 10%N) by (intros ->; discriminate).
  induction n as [|n IH]; intros a Hlen.
  - destruct a; [|cbn in Hlen; lia].
    cbn [app splitlines]. now rewrite H13, Hc.
  - destruct a as [|x r]; [cbn [app splitlines]; now rewrite H13, Hc|].
    cbn in Hlen.
    destruct (N.eq_dec x 13) as [->|Hx].
    + destruct r as [|x' r'].
      * cbn [app]. rewrite !splitlines_cr by (intros r'' [= E _]; congruence).
        f_equal. apply (IH []). cbn. lia.
      * destruct (N.eq_dec x' 10) as [->|Hx'].
        -- cbn in Hlen. cbn. f_equal. apply IH. lia.
        -- cbn [app].
           rewrite !splitlines_cr by (intros r'' [= E _]; congruence).
           f_equal. apply (IH (x' :: r')). lia.
    + apply N.eqb_neq in Hx. cbn [app splitlines]. rewrite Hx.
      now rewrite IH by lia.
Qed.

Lemma splitlines_final_lf (a : str) (c : N) :
  is_linebreak c = false ->
  splitlines ((a ++ [c]) ++ [10%N]) = splitlines (a ++ [c]).
Proof.
  intros Hc. rewrite <- app_assoc. cbn [app].
  exact (@splitlines_final_lf_upto c (List.length a) Hc a (le_n _)).
Qed.

(** ** The batch result parser *)

Section Parser.

(** [json.loads] on text: [None] is a [JSONDecodeError]. *)
Variable json_loads : str -> option json.

(** The caller's target schema: [response_model] applied to the keywords
    [kw] builds an instance of [T] or raises. *)
Variable T : Type.
Variable response_model : dict -> result T.

(** [json.loads(v)] for a decoded value [v]: only text can be decoded. *)
Definition loads (v : json) : result json :=
  match v with
  | JStr s =>
      match json_loads s with
      | Some j => Ok j
      | None => Raise JSONDecodeError
      end
  | _ => Raise TypeError
  end.

(** [response_model] applied to the unpacked [v]: only a mapping can be
    unpacked into keyword arguments. *)
Definition construct (v : json) : result T :=
  match v with
  | JObj kw => response_model kw
  | _ => Raise TypeError
  end.

(** The loop of [parse_from_file] (lines 71-98) over the remaining lines,
    with the two lists built so far. *)
Fixpoint parse_from_file_loop (lines : list str) (res : list T)
    (error_objs : list json) : result (list T * list json) :=
  match lines with
  | [] => Ok (res, error_objs)
  | line :: rest =>
      match json_loads line with
      | None => Raise JSONDecodeError
      | Some data =>
          match
            (message <- getpath data
                 [K "response"; K "body"; K "choices"; I0; K "message"] ;;
             has_tool_calls <- contains (lit "tool_calls") message ;;
             if has_tool_calls then
               (* OpenAI format *)
               arguments <- getpath data
                   [K "response"; K "body"; K "choices"; I0; K "message";
                    K "tool_calls"; I0; K "function"; K "arguments"] ;;
               kw <- loads arguments ;;
               construct kw
             else
               (* Anthropic format *)
               text <- getpath data
                   [K "result"; K "message"; K "content"; I0; K "text"] ;;
               kw <- loads text ;;
               construct kw)
          with
          | Ok obj => parse_from_file_loop rest (res ++ [obj]) error_objs
          | Raise _ => parse_from_file_loop rest res (error_objs ++ [data])
          end
      end
  end.

(** [parse_from_file], on the text of the file at [file_path]. *)
Definition parse_from_file (file : str) : result (list T * list json) :=
  parse_from_file_loop (file_lines file) [] [].

(** The loop of [parse_from_string] (lines 109-133). *)
Fixpoint parse_from_string_loop (lines : list str) (res : list T)
    (error_objs : list json) : result (list T * list json) :=
  match lines with
  | [] => Ok (res, error_objs)
  | line :: rest =>
      match json_loads line with
      | None => Raise JSONDecodeError
      | Some data =>
          match
            (message <- getpath data
                 [K "response"; K "body"; K "choices"; I0; K "message"] ;;
             has_tool_calls <- contains (lit "tool_calls") message ;;
             if has_tool_calls then
               (* OpenAI format *)
               arguments <- getpath data
                   [K "response"; K "body"; K "choices"; I0; K "message";
                    K "tool_calls"; I0; K "function"; K "arguments"] ;;
               kw <- loads arguments ;;
               construct kw
             else
               (* Anthropic format *)
               text <- getpath data
                   [K "result"; K "message"; K "content"; I0; K "text"] ;;
               kw <- loads text ;;
               construct kw)
          with
          | Ok obj => parse_from_string_loop rest (res ++ [obj]) error_objs
          | Raise _ => parse_from_string_loop rest res (error_objs ++ [data])
          end
      end
  end.

Definition parse_from_string (content : str) : result (list T * list json) :=
  let lines := splitlines content in
  parse_from_string_loop lines [] [].

(** *** What one decoded record yields

    [extract data] is the body of the [try] block as a function of the
    decoded record; it is used to state the properties of the two loops,
    which are proved equal to it below. *)
Definition extract (data : json) : result T :=
  message <- getpath data
      [K "response"; K "body"; K "choices"; I0; K "message"] ;;
  has_tool_calls <- contains (lit "tool_calls") message ;;
  if has_tool_calls then
    arguments <- getpath data
        [K "response"; K "body"; K "choices"; I0; K "message";
         K "tool_calls"; I0; K "function"; K "arguments"] ;;
    kw <- loads arguments ;;
    construct kw
  else
    text <- getpath data
        [K "result"; K "message"; K "content"; I0; K "text"] ;;
    kw <- loads text ;;
    construct kw.

(** Decoding every line, or failing at the first one that does not decode. *)
Fixpoint decode_all (lines : list str) : option (list json) :=
  match lines with
  | [] => Some []
  | line :: rest =>
      match json_loads line with
      | None => None
      | Some data =>
          match decode_all rest with
          | None => None
          | Some ds => Some (data :: ds)
          end
      end
  end.

(** The instances built from the records that extract, in order. *)
Fixpoint successes (ds : list json) : list T :=
  match ds with
  | [] => []
  | d :: ds' =>
      match extract d with
      | Ok obj => obj :: successes ds'
      | Raise _ => successes ds'
      end
  end.

(** The records that do not extract, in order. *)
Definition failures (ds : list json) : list json :=
  filter (fun d => negb (is_ok (extract d))) ds.

(** *** The two loops against their per-record description *)

Lemma failures_cons (d : json) (ds : list json) :
  failures (d :: ds) =
  if is_ok (extract d) then failures ds else d :: failures ds.
Proof.
  unfold failures. cbn [filter].
  now destruct (is_ok (extract d)).
Qed.

Lemma parse_from_string_loop_eq (lines : list str) :
  forall res error_objs,
    parse_from_string_loop lines res error_objs =
    match decode_all lines with
    | None => Raise JSONDecodeError
    | Some ds => Ok (res ++ successes ds, error_objs ++ failures ds)
    end.
Proof.
  induction lines as [|line rest IH]; intros res error_objs.
  - cbn. now rewrite !app_nil_r.
  - cbn [parse_from_string_loop decode_all].
    destruct (json_loads line) as [data|]; [|reflexivity].
    fold (extract data).
    destruct (extract data) as [obj|e] eqn:E; rewrite IH;
      destruct (decode_all rest) as [ds|]; try reflexivity;
      rewrite failures_cons; cbn [successes]; rewrite E; cbn [is_ok];
      now rewrite <- app_assoc.
Qed.

Lemma parse_from_file_loop_eq (lines : list str) :
  forall res error_objs,
    parse_from_file_loop lines res error_objs =
    match decode_all lines with
    | None => Raise JSONDecodeError
    | Some ds => Ok (res ++ successes ds, error_objs ++ failures ds)
    end.
Proof.
  induction lines as [|line rest IH]; intros res error_objs.
  - cbn. now rewrite !app_nil_r.
  - cbn [parse_from_file_loop decode_all].
    destruct (json_loads line) as [data|]; [|reflexivity].
    fold (extract data).
    destruct (extract data) as [obj|e] eqn:E; rewrite IH;
      destruct (decode_all rest) as [ds|]; try reflexivity;
      rewrite failures_cons; cbn [successes]; rewrite E; cbn [is_ok];
      now rewrite <- app_assoc.
Qed.

Lemma decode_all_None (lines : list str) (line : str) :
  In line lines -> json_loads line = None -> decode_all lines = None.
Proof.
  induction lines as [|l rest IH]; intros Hin Hbad; [easy|].
  cbn. destruct Hin as [->|Hin].
  - now rewrite Hbad.
  - destruct (json_loads l); [|reflexivity]. now rewrite IH.
Qed.

Lemma decode_all_length (lines : list str) (ds : list json) :
  decode_all lines = Some ds -> length ds = length lines.
Proof.
  revert ds. induction lines as [|l rest IH]; intros ds; cbn.
  - now intros [= <-].
  - destruct (json_loads l); [|easy].
    destruct (decode_all rest) as [ds'|]; [|easy].
    intros [= <-]. cbn. now rewrite (IH ds').
Qed.

Lemma successes_failures_length (ds : list json) :
  length (successes ds) + length (failures ds) = length ds.
Proof.
  induction ds as [|d ds IH]; [reflexivity|].
  rewrite failures_cons. cbn [successes].
  destruct (extract d); cbn [is_ok length]; lia.
Qed.

Lemma failures_spec (ds : list json) (d : json) :
  In d (failures ds) <-> In d ds /\ exists e, extract d = Raise e.
Proof.
  unfold failures. rewrite filter_In.
  destruct (extract d) as [obj|e]; cbn; split.
  - now intros [_ ?].
  - now intros [_ [e ?]].
  - intros [? _]. eauto.
  - now intros [? _].
Qed.

(** A record without a "response" key raises at the first subscript of
    the format test, whatever else it holds. *)
Lemma extract_no_response (d : dict) :
  Dict.get (lit "response") d = None -> extract (JObj d) = Raise KeyError.
Proof.
  intros H. unfold extract. cbn [getpath getsub getitem].
  now rewrite H.
Qed.

(** *** Properties of the batch result parser *)

Lemma parse_from_string_eq (content : str) :
  parse_from_string content =
  match decode_all (splitlines content) with
  | None => Raise JSONDecodeError
  | Some ds => Ok (successes ds, failures ds)
  end.
Proof.
  unfold parse_from_string. now rewrite parse_from_string_loop_eq.
Qed.

Lemma parse_from_file_eq (content : str) :
  parse_from_file content =
  match decode_all (file_lines content) with
  | None => Raise JSONDecodeError
  | Some ds => Ok (successes ds, failures ds)
  end.
Proof.
  unfold parse_from_file. now rewrite parse_from_file_loop_eq.
Qed.

Lemma decode_all_same (fls ls : list str) :
  Forall2 same_line fls ls ->
  Forall (fun line => json_loads (line ++ [10%N]) = json_loads line) ls ->
  decode_all fls = decode_all ls.
Proof.
  induction 1 as [|fl l fls ls Hl _ IH]; intros Hnl; [reflexivity|].
  inversion Hnl as [|? ? Hhead Htail]; subst. cbn.
  rewrite (IH Htail). now destruct Hl as [->| ->]; [|rewrite Hhead].
Qed.

(** C2.  A line that is not valid JSON aborts the call, in either entry
    point and wherever the line stands: the decode error is raised to
    the caller and no pair of lists is returned. *)
Theorem invalid_line_aborts_parse (content : str) :
  (forall line, In line (splitlines content) -> json_loads line = None ->
                parse_from_string content = Raise JSONDecodeError) /\
  (forall line, In line (file_lines content) -> json_loads line = None ->
                parse_from_file content = Raise JSONDecodeError).
Proof.
  split; intros line Hin Hbad.
  - rewrite parse_from_string_eq.
    now rewrite (@decode_all_None _ _ Hin Hbad).
  - rewrite parse_from_file_eq.
    now rewrite (@decode_all_None _ _ Hin Hbad).
Qed.

(** C3.  When every line decodes, the call returns; the first list holds
    the instances built from the records whose extraction succeeds, in
    input order, and the second list holds, in input order, exactly the
    decoded records whose extraction raises, each one as it was decoded. *)
Theorem record_errors_are_isolated (content : str) :
  (forall ds, decode_all (splitlines content) = Some ds ->
     parse_from_string content = Ok (successes ds, failures ds)) /\
  (forall ds, decode_all (file_lines content) = Some ds ->
     parse_from_file content = Ok (successes ds, failures ds)) /\
  (forall ds,
     failures ds = filter (fun d => negb (is_ok (extract d))) ds /\
     successes ds =
       flat_map (fun d => match extract d with
                          | Ok obj => [obj]
                          | Raise _ => []
                          end) ds).
Proof.
  split; [|split].
  - intros ds H. now rewrite parse_from_string_eq, H.
  - intros ds H. now rewrite parse_from_file_eq, H.
  - intros ds. split; [reflexivity|].
    induction ds as [|d ds IH]; [reflexivity|].
    cbn [successes flat_map]. rewrite IH.
    now destruct (extract d).
Qed.

(** C4.  A call that returns has put every line it examined in exactly
    one of the two lists: their lengths add up to the number of lines. *)
Theorem every_line_is_counted (content : str) (parsed : list T)
    (errors : list json) :
  (parse_from_string content = Ok (parsed, errors) ->
   List.length (splitlines content) =
   List.length parsed + List.length errors) /\
  (parse_from_file content = Ok (parsed, errors) ->
   List.length (file_lines content) =
   List.length parsed + List.length errors).
Proof.
  split.
  - rewrite parse_from_string_eq.
    destruct (decode_all (splitlines content)) as [ds|] eqn:E; [|easy].
    intros [= <- <-]. rewrite <- (@decode_all_length _ _ E).
    symmetry. apply successes_failures_length.
  - rewrite parse_from_file_eq.
    destruct (decode_all (file_lines content)) as [ds|] eqn:E; [|easy].
    intros [= <- <-]. rewrite <- (@decode_all_length _ _ E).
    symmetry. apply successes_failures_length.
Qed.

(** X17.  The two entry points differ only in how they cut the text
    into lines.  On a text whose only line boundaries are LF, CR and
    CR LF, and whose lines decode the same with a line feed after them,
    reading the text as a file and passing it as a string give the same
    result, a raised decode error included. *)
Theorem entry_points_agree_on_plain_lines (content : str) :
  only_newlines content = true ->
  Forall (fun line => json_loads (line ++ [10%N]) = json_loads line)
         (splitlines content) ->
  parse_from_file content = parse_from_string content.
Proof.
  intros Hplain Hnl.
  rewrite parse_from_file_eq, parse_from_string_eq.
  now rewrite (decode_all_same (lines_agree content Hplain) Hnl).
Qed.

(** *** Which records are parsed *)

(** The subscript chain of the format test, and the two chains that
    continue to the text to decode. *)
Definition message_path : list sub :=
  [K "response"; K "body"; K "choices"; I0; K "message"].

Definition arguments_path : list sub :=
  message_path ++ [K "tool_calls"; I0; K "function"; K "arguments"].

Definition text_path : list sub :=
  [K "result"; K "message"; K "content"; I0; K "text"].

(** A record of the generic shape: the chain to the arguments leads to
    a text that decodes to keywords from which [obj] is built. *)
Definition generic_record (data : json) (obj : T) : Prop :=
  exists text kw,
    getpath data arguments_path = Ok (JStr text) /\
    json_loads text = Some (JObj kw) /\
    response_model kw = Ok obj.

(** A record read by the other branch: it has the message of the format
    test, the message does not contain "tool_calls", and the chain under
    "result" leads to a text from which [obj] is built. *)
Definition fallback_record (data : json) (obj : T) : Prop :=
  exists message text kw,
    getpath data message_path = Ok message /\
    contains (lit "tool_calls") message = Ok false /\
    getpath data text_path = Ok (JStr text) /\
    json_loads text = Some (JObj kw) /\
    response_model kw = Ok obj.

Lemma getpath_app (x : json) (p q : list sub) :
  getpath x (p ++ q) = (y <- getpath x p ;; getpath y q).
Proof.
  revert x. induction p as [|s p IH]; intros x; [reflexivity|].
  cbn [app getpath]. destruct (getsub x s); cbn [bind]; [apply IH|reflexivity].
Qed.

Lemma arguments_path_message (data : json) (v : json) :
  getpath data arguments_path = Ok v ->
  exists message,
    getpath data message_path = Ok message /\
    contains (lit "tool_calls") message = Ok true.
Proof.
  unfold arguments_path. rewrite getpath_app.
  destruct (getpath data message_path) as [message|e]; cbn [bind]; [|easy].
  intros H. exists message. split; [reflexivity|].
  cbn [getpath getsub] in H.
  destruct message; try discriminate. cbn [getitem contains] in *.
  unfold Dict.mem.
  now destruct (Dict.get (lit "tool_calls") d).
Qed.

Lemma extract_generic (data : json) (obj : T) :
  generic_record data obj -> extract data = Ok obj.
Proof.
  intros (text & kw & Hpath & Htext & Hobj).
  destruct (arguments_path_message _ Hpath) as (message & Hm & Hc).
  unfold extract. fold message_path. rewrite Hm. cbn [bind]. rewrite Hc.
  cbn [bind].
  change (getpath data _) with (getpath data arguments_path).
  rewrite Hpath. cbn [bind loads]. now rewrite Htext.
Qed.

Lemma extract_fallback (data : json) (obj : T) :
  fallback_record data obj -> extract data = Ok obj.
Proof.
  intros (message & text & kw & Hm & Hc & Hpath & Htext & Hobj).
  unfold extract. fold message_path. rewrite Hm. cbn [bind]. rewrite Hc.
  cbn [bind]. fold text_path. rewrite Hpath. cbn [bind loads].
  now rewrite Htext.
Qed.

Lemma loads_construct_inv (v : json) (obj : T) :
  (kw <- loads v ;; construct kw) = Ok obj ->
  exists text kw,
    v = JStr text /\ json_loads text = Some (JObj kw) /\
    response_model kw = Ok obj.
Proof.
  destruct v as [| | | |text| |]; try discriminate. cbn [loads].
  destruct (json_loads text) as [j|] eqn:E; [|discriminate]. cbn [bind].
  destruct j as [| | | | | |kw]; try discriminate. cbn [construct].
  intros H. now exists text, kw.
Qed.

Lemma extract_inv (data : json) (obj : T) :
  extract data = Ok obj ->
  generic_record data obj \/ fallback_record data obj.
Proof.
  unfold extract. fold message_path text_path.
  destruct (getpath data message_path) as [message|e] eqn:Hm; [|easy].
  cbn [bind].
  destruct (contains (lit "tool_calls") message) as [[|]|e] eqn:Hc; [| |easy];
    cbn [bind].
  - change (getpath data _) with (getpath data arguments_path).
    destruct (getpath data arguments_path) as [v|e] eqn:Hp; [|easy].
    cbn [bind]. intros H.
    destruct (loads_construct_inv _ H) as (text & kw & -> & Htext & Hobj).
    left. now exists text, kw.
  - destruct (getpath data text_path) as [v|e] eqn:Hp; [|easy].
    cbn [bind]. intros H.
    destruct (loads_construct_inv _ H) as (text & kw & -> & Htext & Hobj).
    right. now exists message, text, kw.
Qed.

Lemma successes_all (ds : list json) (objs : list T) :
  Forall2 (fun d obj => extract d = Ok obj) ds objs ->
  successes ds = objs /\ failures ds = [].
Proof.
  induction 1 as [|d obj ds objs Hd _ [IHs IHf]]; [now split|].
  rewrite failures_cons. cbn [successes]. rewrite Hd. cbn [is_ok].
  now rewrite IHs, IHf.
Qed.

Lemma failures_all (ds : list json) :
  Forall (fun d => exists e, extract d = Raise e) ds ->
  successes ds = [] /\ failures ds = ds.
Proof.
  induction 1 as [|d ds [e Hd] _ [IHs IHf]]; [now split|].
  rewrite failures_cons. cbn [successes]. rewrite Hd. cbn [is_ok].
  now rewrite IHs, IHf.
Qed.

Lemma decode_all_In (lines : list str) (ds : list json) (d : json) :
  decode_all lines = Some ds -> In d ds ->
  exists line, In line lines /\ json_loads line = Some d.
Proof.
  revert ds. induction lines as [|l rest IH]; intros ds; cbn.
  - now intros [= <-].
  - destruct (json_loads l) as [d0|] eqn:El; [|easy].
    destruct (decode_all rest) as [ds'|]; [|easy].
    intros [= <-] [->|Hin].
    + exists l. now split; [left|].
    + destruct (IH _ eq_refl Hin) as (line & Hline & Hd).
      exists line. now split; [right|].
Qed.

Lemma successes_In (ds : list json) (obj : T) :
  In obj (successes ds) -> exists d, In d ds /\ extract d = Ok obj.
Proof.
  induction ds as [|d ds IH]; [easy|]. cbn [successes].
  destruct (extract d) as [o|e] eqn:E.
  - intros [->|Hin].
    + exists d. now split; [left|].
    + destruct (IH Hin) as (d' & Hd' & He). exists d'. now split; [right|].
  - intros Hin. destruct (IH Hin) as (d' & Hd' & He).
    exists d'. now split; [right|].
Qed.

(** What a list of decoded records yields, whichever entry point split
    the lines. *)
Lemma results_come_from (lines : list str) (ds : list json) :
  decode_all lines = Some ds ->
  (forall obj, In obj (successes ds) ->
     exists line data,
       In line lines /\ json_loads line = Some data /\
       (generic_record data obj \/ fallback_record data obj)) /\
  (forall data, In data (failures ds) ->
     exists line,
       In line lines /\ json_loads line = Some data /\
       forall obj, ~ (generic_record data obj \/ fallback_record data obj)).
Proof.
  intros Hds. split.
  - intros obj Hin. destruct (successes_In _ _ Hin) as (d & Hd & He).
    destruct (@decode_all_In _ _ _ Hds Hd) as (line & Hline & Hdec).
    exists line, d. split; [assumption|]. split; [assumption|].
    now apply extract_inv.
  - intros data Hin. apply failures_spec in Hin as [Hd [e He]].
    destruct (@decode_all_In _ _ _ Hds Hd) as (line & Hline & Hdec).
    exists line. split; [assumption|]. split; [assumption|].
    intros obj [Hg|Hf].
    + apply extract_generic in Hg. congruence.
    + apply extract_fallback in Hf. congruence.
Qed.

(** X1.  A batch output whose lines all decode to records of the generic
    shape is parsed completely: the instances come back in line order and
    the error list is empty, from a file as from a string. *)
Theorem generic_batch_is_fully_parsed (content : str) (ds : list json)
    (objs : list T) :
  Forall2 generic_record ds objs ->
  (decode_all (splitlines content) = Some ds ->
   parse_from_string content = Ok (objs, [])) /\
  (decode_all (file_lines content) = Some ds ->
   parse_from_file content = Ok (objs, [])).
Proof.
  intros Hall.
  assert (H : Forall2 (fun d obj => extract d = Ok obj) ds objs)
    by (eapply Forall2_impl; [|exact Hall]; apply extract_generic).
  destruct (successes_all H) as [Hs Hf].
  split; intros Hds.
  - now rewrite parse_from_string_eq, Hds, Hs, Hf.
  - now rewrite parse_from_file_eq, Hds, Hs, Hf.
Qed.

(** X2.  A decoded line that cannot be subscripted with "response" (an
    object without that key, or a list, string, number or null) is never
    parsed: a batch output made of such lines returns no instance and
    returns every decoded line, in order, as an error. *)
Theorem records_without_response_are_errors (content : str)
    (ds : list json) :
  Forall (fun d => exists e, getitem d (lit "response") = Raise e) ds ->
  (decode_all (splitlines content) = Some ds ->
   parse_from_string content = Ok ([], ds)) /\
  (decode_all (file_lines content) = Some ds ->
   parse_from_file content = Ok ([], ds)).
Proof.
  intros Hall.
  assert (H : Forall (fun d => exists e, extract d = Raise e) ds).
  { eapply Forall_impl; [|exact Hall]. intros d [e He]. exists e.
    unfold extract. cbn [getpath getsub]. now rewrite He. }
  destruct (failures_all H) as [Hs Hf].
  split; intros Hds.
  - now rewrite parse_from_string_eq, Hds, Hs, Hf.
  - now rewrite parse_from_file_eq, Hds, Hs, Hf.
Qed.

(** X3.  The branch commented as the Anthropic format is taken by the
    records that do have response.body.choices[0].message, without
    "tool_calls" in it: a batch of such records that also carry
    result.message.content[0].text with valid content is parsed
    completely, in line order. *)
Theorem fallback_batch_is_fully_parsed (content : str) (ds : list json)
    (objs : list T) :
  Forall2 fallback_record ds objs ->
  (decode_all (splitlines content) = Some ds ->
   parse_from_string content = Ok (objs, [])) /\
  (decode_all (file_lines content) = Some ds ->
   parse_from_file content = Ok (objs, [])).
Proof.
  intros Hall.
  assert (H : Forall2 (fun d obj => extract d = Ok obj) ds objs)
    by (eapply Forall2_impl; [|exact Hall]; apply extract_fallback).
  destruct (successes_all H) as [Hs Hf].
  split; intros Hds.
  - now rewrite parse_from_string_eq, Hds, Hs, Hf.
  - now rewrite parse_from_file_eq, Hds, Hs, Hf.
Qed.

(** X4.  Nothing is invented and nothing is misfiled: every instance
    returned was built from a line of the input that decodes to a record
    of one of the two readable forms, and every error returned is the
    decoded value of a line of the input that has neither form. *)
Theorem parser_results_come_from_the_input (content : str)
    (parsed : list T) (errors : list json) :
  (parse_from_string content = Ok (parsed, errors) ->
   (forall obj, In obj parsed ->
      exists line data,
        In line (splitlines content) /\ json_loads line = Some data /\
        (generic_record data obj \/ fallback_record data obj)) /\
   (forall data, In data errors ->
      exists line,
        In line (splitlines content) /\ json_loads line = Some data /\
        forall obj,
          ~ (generic_record data obj \/ fallback_record data obj))) /\
  (parse_from_file content = Ok (parsed, errors) ->
   (forall obj, In obj parsed ->
      exists line data,
        In line (file_lines content) /\ json_loads line = Some data /\
        (generic_record data obj \/ fallback_record data obj)) /\
   (forall data, In data errors ->
      exists line,
        In line (file_lines content) /\ json_loads line = Some data /\
        forall obj,
          ~ (generic_record data obj \/ fallback_record data obj))).
Proof.
  split.
  - rewrite parse_from_string_eq.
    destruct (decode_all (splitlines content)) as [ds|] eqn:E; [|easy].
    intros [= <- <-]. exact (results_come_from _ E).
  - rewrite parse_from_file_eq.
    destruct (decode_all (file_lines content)) as [ds|] eqn:E; [|easy].
    intros [= <- <-]. exact (results_come_from _ E).
Qed.

(** *** Parsing a text made of two parts *)

Lemma decode_all_app (l1 l2 : list str) :
  decode_all (l1 ++ l2) =
  match decode_all l1, decode_all l2 with
  | Some d1, Some d2 => Some (d1 ++ d2)
  | _, _ => None
  end.
Proof.
  induction l1 as [|l l1 IH]; cbn.
  - now destruct (decode_all l2).
  - destruct (json_loads l); [|reflexivity]. rewrite IH.
    now destruct (decode_all l1), (decode_all l2).
Qed.

Lemma successes_app (d1 d2 : list json) :
  successes (d1 ++ d2) = successes d1 ++ successes d2.
Proof.
  induction d1 as [|d d1 IH]; [reflexivity|]. cbn [app successes].
  rewrite IH. now destruct (extract d).
Qed.

Lemma failures_app (d1 d2 : list json) :
  failures (d1 ++ d2) = failures d1 ++ failures d2.
Proof. apply filter_app. Qed.

(** The results of two calls, one after the other. *)
Definition chain (r1 r2 : result (list T * list json))
    : result (list T * list json) :=
  p1 <- r1 ;; p2 <- r2 ;; Ok (fst p1 ++ fst p2, snd p1 ++ snd p2).

Lemma chain_decoded (l1 l2 : list str) :
  match decode_all (l1 ++ l2) with
  | None => Raise JSONDecodeError
  | Some ds => Ok (successes ds, failures ds)
  end
  = chain
      match decode_all l1 with
      | None => Raise JSONDecodeError
      | Some ds => Ok (successes ds, failures ds)
      end
      match decode_all l2 with
      | None => Raise JSONDecodeError
      | Some ds => Ok (successes ds, failures ds)
      end.
Proof.
  rewrite decode_all_app.
  destruct (decode_all l1) as [d1|], (decode_all l2) as [d2|]; cbn;
    try reflexivity.
  now rewrite successes_app, failures_app.
Qed.

(** X5.  Parsing a text that ends in a line feed followed by a second
    text is parsing the two one after the other: the call raises when
    either part does, and otherwise returns the instances of the first
    part before those of the second and likewise for the errors. *)
Theorem parse_of_concatenation (a b : str) :
  parse_from_string ((a ++ [10%N]) ++ b)
  = chain (parse_from_string (a ++ [10%N])) (parse_from_string b) /\
  parse_from_file ((a ++ [10%N]) ++ b)
  = chain (parse_from_file (a ++ [10%N])) (parse_from_file b).
Proof.
  split.
  - rewrite !parse_from_string_eq, splitlines_app_lf. apply chain_decoded.
  - rewrite !parse_from_file_eq, file_lines_app_lf. apply chain_decoded.
Qed.

(** X6.  An empty line is fatal: a decoder that rejects the empty text
    (for a file, the text of a lone line feed) makes the call raise on
    any input that starts with a line feed or holds two line feeds in a
    row, whatever the other lines are. *)
Theorem blank_line_aborts_parse (a b : str) :
  (json_loads [] = None ->
   parse_from_string (10%N :: b) = Raise JSONDecodeError /\
   parse_from_string ((a ++ [10%N]) ++ 10%N :: b) = Raise JSONDecodeError) /\
  (json_loads [10%N] = None ->
   parse_from_file (10%N :: b) = Raise JSONDecodeError /\
   parse_from_file ((a ++ [10%N]) ++ 10%N :: b) = Raise JSONDecodeError).
Proof.
  split; intros Hbad; split.
  - rewrite parse_from_string_eq.
    rewrite (@decode_all_None (splitlines (10%N :: b)) []);
      [reflexivity | now left | exact Hbad].
  - rewrite parse_from_string_eq, splitlines_app_lf.
    rewrite (@decode_all_None _ []); [reflexivity | | exact Hbad].
    apply in_or_app. right. now left.
  - rewrite parse_from_file_eq.
    rewrite (@decode_all_None (file_lines (10%N :: b)) [10%N]);
      [reflexivity | now left | exact Hbad].
  - rewrite parse_from_file_eq, file_lines_app_lf.
    rewrite (@decode_all_None _ [10%N]); [reflexivity | | exact Hbad].
    apply in_or_app. right. now left.
Qed.

(** X16.  For [parse_from_string] a line feed at the very end is
    immaterial: a text whose last character is not a line boundary gives
    the same result, or raises the same, with a line feed added after
    it. *)
Theorem final_line_feed_is_immaterial (a : str) (c : N) :
  is_linebreak c = false ->
  parse_from_string ((a ++ [c]) ++ [10%N]) = parse_from_string (a ++ [c]).
Proof.
  intros Hc. now rewrite !parse_from_string_eq, splitlines_final_lf.
Qed.

End Parser.

(** ** A reference JSON codec

    The theorems of this file hold for every decoder and writer.  To run
    the functions on concrete batch files, [JsonText.loads] decodes (and
    [JsonWriter.dumps], further down, writes) the JSON texts that use
    objects, arrays, strings with the one-letter escapes, integers,
    decimal fractions that convert exactly, [true], [false] and [null].
    Texts outside this fragment (exponents, [\u] escapes, [NaN]) are not
    decoded. *)

Module JsonText.

(** A JSON text written with ['] where JSON has its double quote. *)
Definition jtext (s : string) : str :=
  List.map (fun c => if N.eqb c 39 then 34%N else c) (lit s).

Definition is_ws (c : N) : bool := existsb (N.eqb c) [32; 9; 10; 13]%N.

Fixpoint skip_ws (s : str) : str :=
  match s with
  | c :: r => if is_ws c then skip_ws r else s
  | [] => []
  end.

Definition unescape (c : N) : option N :=
  if N.eqb c 34 then Some 34%N          (* quote *)
  else if N.eqb c 92 then Some 92%N     (* backslash *)
  else if N.eqb c 47 then Some 47%N     (* slash *)
  else if N.eqb c 98 then Some 8%N      (* b *)
  else if N.eqb c 102 then Some 12%N    (* f *)
  else if N.eqb c 110 then Some 10%N    (* n *)
  else if N.eqb c 114 then Some 13%N    (* r *)
  else if N.eqb c 116 then Some 9%N     (* t *)
  else None.

(** The characters of a string literal after its opening quote, and what
    follows the closing quote.  Control characters must be escaped. *)
Fixpoint scan_string (s : str) : option (str * str) :=
  match s with
  | [] => None
  | c :: r =>
      if N.eqb c 34 then Some ([], r)
      else if N.eqb c 92 then
        match r with
        | e :: r' =>
            match unescape e, scan_string r' with
            | Some u, Some (t, rest) => Some (u :: t, rest)
            | _, _ => None
            end
        | [] => None
        end
      else if N.ltb c 32 then None
      else
        match scan_string r with
        | Some (t, rest) => Some (c :: t, rest)
        | None => None
        end
  end.

Definition is_digit (c : N) : bool := N.leb 48 c && N.leb c 57.

Fixpoint take_digits (s : str) : str * str :=
  match s with
  | c :: r =>
      if is_digit c then let (ds, rest) := take_digits r in (c :: ds, rest)
      else ([], s)
  | [] => ([], [])
  end.

Definition digits_value (ds : str) : Z :=
  fold_left (fun acc c => (10 * acc + Z.of_N (c - 48))%Z) ds 0%Z.

Definition float_of_Z (z : Z) : float := PrimFloat.of_uint63 (Uint63.of_Z z).

(** A number without its sign: an integer, or a fraction whose digits and
    scale are both exact as floats, so that one division rounds it
    correctly. *)
Definition scan_number (neg : bool) (s : str) : option (json * str) :=
  let (ip, r) := take_digits s in
  match ip with
  | [] => None
  | d :: more =>
      let r := if N.eqb d 48 then more ++ r else r in
      let ip := if N.eqb d 48 then [d] else ip in
      match r with
      | 46%N :: r1 =>
          let (fp, r2) := take_digits r1 in
          let num := digits_value (ip ++ fp) in
          let k := List.length fp in
          match fp, r2 with
          | [], _ => None
          | _, 101%N :: _ | _, 69%N :: _ => None
          | _, _ =>
              if (num <? 2 ^ 53)%Z && (k <=? 22)%nat then
                let f := PrimFloat.div (float_of_Z num)
                           (float_of_Z (10 ^ Z.of_nat k)) in
                Some (JFloat (if neg then PrimFloat.opp f else f), r2)
              else None
          end
      | 101%N :: _ | 69%N :: _ => None
      | _ =>
          let z := digits_value ip in
          Some (JInt (if neg then Z.opp z else z), r)
      end
  end.

(** [dict(pairs)]: a repeated key keeps its first position and takes the
    last value. *)
Definition dict_of_pairs (pairs : list (str * json)) : dict :=
  fold_left (fun d kv => Dict.set (fst kv) (snd kv) d) pairs [].

Fixpoint parse_value (fuel : nat) (s : str) : option (json * str) :=
  match fuel with
  | O => None
  | S n =>
      match s with
      | [] => None
      | c :: r =>
          if N.eqb c 34 then
            match scan_string r with
            | Some (t, rest) => Some (JStr t, rest)
            | None => None
            end
          else if N.eqb c 123 then
            match skip_ws r with
            | 125%N :: rest => Some (JObj [], rest)
            | r1 =>
                match parse_members n r1 with
                | Some (pairs, rest) => Some (JObj (dict_of_pairs pairs), rest)
                | None => None
                end
            end
          else if N.eqb c 91 then
            match skip_ws r with
            | 93%N :: rest => Some (JArr [], rest)
            | r1 =>
                match parse_elements n r1 with
                | Some (vs, rest) => Some (JArr vs, rest)
                | None => None
                end
            end
          else if startswith s (lit "true") then Some (JBool true, skipn 4 s)
          else if startswith s (lit "false") then Some (JBool false, skipn 5 s)
          else if startswith s (lit "null") then Some (JNull, skipn 4 s)
          else if N.eqb c 45 then scan_number true r
          else scan_number false s
      end
  end
with parse_elements (fuel : nat) (s : str) : option (list json * str) :=
  match fuel with
  | O => None
  | S n =>
      match parse_value n s with
      | None => None
      | Some (v, r) =>
          match skip_ws r with
          | c :: r1 =>
              if N.eqb c 93 then Some ([v], r1)
              else if N.eqb c 44 then
                match parse_elements n (skip_ws r1) with
                | Some (vs, rest) => Some (v :: vs, rest)
                | None => None
                end
              else None
          | [] => None
          end
      end
  end
with parse_members (fuel : nat) (s : str) : option (list (str * json) * str) :=
  match fuel with
  | O => None
  | S n =>
      match s with
      | 34%N :: r =>
          match scan_string r with
          | None => None
          | Some (k, r1) =>
              match skip_ws r1 with
              | 58%N :: r2 =>
                  match parse_value n (skip_ws r2) with
                  | None => None
                  | Some (v, r3) =>
                      match skip_ws r3 with
                      | c :: r4 =>
                          if N.eqb c 125 then Some ([(k, v)], r4)
                          else if N.eqb c 44 then
                            match parse_members n (skip_ws r4) with
                            | Some (kvs, rest) => Some ((k, v) :: kvs, rest)
                            | None => None
                            end
                          else None
                      | [] => None
                      end
                  end
              | _ => None
              end
          end
      | _ => None
      end
  end.

(** [json.loads] on the fragment: one value, surrounded by white space
    only. *)
Definition loads (s : str) : option json :=
  match parse_value (2 * List.length s + 2) (skip_ws s) with
  | Some (v, rest) =>
      match skip_ws rest with
      | [] => Some v
      | _ :: _ => None
      end
  | None => None
  end.

End JsonText.

(** ** The pydantic models (lines 12-60)

    A model instance is a record of its validated fields.  Building one
    from keyword arguments validates every field; a missing or ill-typed
    field is a [ValidationError], keywords that name no field are ignored.
    [dump] is the value that [model_dump] returns, fields in declaration
    order. *)

(** A required field of type [str]. *)
Definition required_str (k : string) (kw : dict) : result str :=
  match Dict.get (lit k) kw with
  | Some (JStr s) => Ok s
  | _ => Raise ValidationError
  end.

(** A required field of type [Any]. *)
Definition required_any (k : string) (kw : dict) : result json :=
  match Dict.get (lit k) kw with
  | Some v => Ok v
  | None => Raise ValidationError
  end.

Definition dump_option {A} (f : A -> json) (o : option A) : json :=
  match o with
  | Some a => f a
  | None => JNull
  end.

Module Function.

Record t := mk { name : str; description : str; parameters : json }.

(** A value offered for a field of type [Function]. *)
Definition validate (v : json) : result t :=
  match v with
  | JObj kw =>
      n <- required_str "name" kw ;;
      d <- required_str "description" kw ;;
      p <- required_any "parameters" kw ;;
      Ok (mk n d p)
  | _ => Raise ValidationError
  end.

Definition dump (f : t) : json :=
  JObj [(lit "name", JStr (name f));
        (lit "description", JStr (description f));
        (lit "parameters", parameters f)].

End Function.

Module Tool.

Record t := mk { type : str; function : Function.t }.

(** [Tool] applied to the unpacked [tool_data]. *)
Definition new (tool_data : json) : result t :=
  match tool_data with
  | JObj kw =>
      ty <- required_str "type" kw ;;
      f <- match Dict.get (lit "function") kw with
           | Some v => Function.validate v
           | None => Raise ValidationError
           end ;;
      Ok (mk ty f)
  | _ => Raise TypeError
  end.

Definition dump (x : t) : json :=
  JObj [(lit "type", JStr (type x));
        (lit "function", Function.dump (function x))].

End Tool.

Module AnthropicTool.

Record t := mk { name : str; description : str; input_schema : json }.

(** [AnthropicTool(name=n, description=d, input_schema=i)]. *)
Definition new (n d i : json) : result t :=
  match n, d with
  | JStr n', JStr d' => Ok (mk n' d' i)
  | _, _ => Raise ValidationError
  end.

Definition dump (x : t) : json :=
  JObj [(lit "name", JStr (name x));
        (lit "description", JStr (description x));
        (lit "input_schema", input_schema x)].

End AnthropicTool.

(** [Union[Tool, AnthropicTool]]. *)
Inductive ToolSchema :=
| Generic (x : Tool.t)
| Anthropic (x : AnthropicTool.t).

Definition dump_tool (x : ToolSchema) : json :=
  match x with
  | Generic g => Tool.dump g
  | Anthropic a => AnthropicTool.dump a
  end.

Definition is_generic (x : ToolSchema) : bool :=
  match x with Generic _ => true | Anthropic _ => false end.

Definition is_anthropic (x : ToolSchema) : bool :=
  match x with Generic _ => false | Anthropic _ => true end.

Module RequestBody.

Record t := mk {
  model : str;
  messages : list dict;
  max_tokens : option Z;
  temperature : option float;
  tools : option (list ToolSchema);
  tool_choice : option dict
}.

(** The body of the loop of [map_tools] (lines 42-52) for one element:
    the typed tool it appends, or the exception it raises. *)
Definition map_tool (tool_data : json) : result ToolSchema :=
  has_function <- contains (lit "function") tool_data ;;
  if has_function then
    x <- Tool.new tool_data ;;
    Ok (Generic x)
  else
    has_input_schema <- contains (lit "input_schema") tool_data ;;
    if has_input_schema then
      n <- getitem tool_data (lit "name") ;;
      d <- getitem tool_data (lit "description") ;;
      i <- getitem tool_data (lit "input_schema") ;;
      x <- AnthropicTool.new n d i ;;
      Ok (Anthropic x)
    else Raise ValueError.

Fixpoint map_tools_loop (tools_data : list json)
    (mapped_tools : list ToolSchema) : result (list ToolSchema) :=
  match tools_data with
  | [] => Ok mapped_tools
  | tool_data :: rest =>
      x <- map_tool tool_data ;;
      map_tools_loop rest (mapped_tools ++ [x])
  end.

(** The pre-validation root validator [map_tools].  It returns [values]
    with ["tools"] set to [mapped_tools]; the other entries are left as
    they are, so only [mapped_tools] is returned here. *)
Definition map_tools (values : dict) : result (list ToolSchema) :=
  let tools_data :=
    match Dict.get (lit "tools") values with
    | Some v => v
    | None => JArr []
    end in
  items <- iterate tools_data ;;
  map_tools_loop items [].

Section Validation.

(** pydantic's coercion of a value to [int] and to [float]. *)
Variable validate_int : json -> option Z.
Variable validate_float : json -> option float.

(** A field of type [Optional[X]] with a default. *)
Definition optional {A} (validate : json -> option A) (default : option A)
    (v : option json) : result (option A) :=
  match v with
  | None => Ok default
  | Some JNull => Ok None
  | Some x =>
      match validate x with
      | Some a => Ok (Some a)
      | None => Raise ValidationError
      end
  end.

Definition validate_dict (v : json) : option dict :=
  match v with
  | JObj d => Some d
  | _ => None
  end.

(** [list[dict[str, Any]]]. *)
Fixpoint validate_messages (l : list json) : option (list dict) :=
  match l with
  | [] => Some []
  | JObj d :: rest =>
      match validate_messages rest with
      | Some ds => Some (d :: ds)
      | None => None
      end
  | _ :: _ => None
  end.

Definition required_messages (kw : dict) : result (list dict) :=
  match Dict.get (lit "messages") kw with
  | Some (JArr l) =>
      match validate_messages l with
      | Some ms => Ok ms
      | None => Raise ValidationError
      end
  | _ => Raise ValidationError
  end.

(** [RequestBody] applied to the keywords [values]: the root validator
    runs first, then the fields are validated.  A [ValueError] raised by
    a validator reaches the caller as a [ValidationError]; other
    exceptions pass through. *)
Definition new (values : dict) : result t :=
  match map_tools values with
  | Raise ValueError => Raise ValidationError
  | Raise e => Raise e
  | Ok mapped_tools =>
      m <- required_str "model" values ;;
      ms <- required_messages values ;;
      mt <- optional validate_int (Some 1000%Z)
              (Dict.get (lit "max_tokens") values) ;;
      tp <- optional validate_float (Some 1%float)
              (Dict.get (lit "temperature") values) ;;
      tc <- optional validate_dict None
              (Dict.get (lit "tool_choice") values) ;;
      Ok (mk m ms mt tp (Some mapped_tools) tc)
  end.

End Validation.

Definition fields (x : t) : dict :=
  [(lit "model", JStr (model x));
   (lit "messages", JArr (List.map JObj (messages x)));
   (lit "max_tokens", dump_option JInt (max_tokens x));
   (lit "temperature", dump_option JFloat (temperature x));
   (lit "tools",
    dump_option (fun l => JArr (List.map dump_tool l)) (tools x));
   (lit "tool_choice", dump_option JObj (tool_choice x))].

Definition dump (x : t) : json := JObj (fields x).

End RequestBody.

Module BatchModel.

Record t := mk { custom_id : str; params : RequestBody.t }.

Definition dump (x : t) : json :=
  JObj [(lit "custom_id", JStr (custom_id x));
        (lit "params", RequestBody.dump (params x))].

End BatchModel.

(** ** Properties of tool classification and of the request envelope *)

Section EnvelopeTheorems.

Variable validate_int : json -> option Z.
Variable validate_float : json -> option float.

(** The loop of [map_tools] maps its elements one by one, in order. *)
Lemma map_tools_loop_ok (items : list json) :
  forall acc xs,
    Forall2 (fun item x => RequestBody.map_tool item = Ok x) items xs ->
    RequestBody.map_tools_loop items acc = Ok (acc ++ xs).
Proof.
  induction items as [|item rest IH]; intros acc xs H; inversion H; subst.
  - cbn. now rewrite app_nil_r.
  - cbn [RequestBody.map_tools_loop].
    match goal with E : RequestBody.map_tool item = _ |- _ => rewrite E end.
    cbn [bind]. erewrite IH by eassumption. now rewrite <- app_assoc.
Qed.

Lemma map_tools_loop_inv (items : list json) :
  forall acc ts,
    RequestBody.map_tools_loop items acc = Ok ts ->
    exists xs,
      ts = acc ++ xs /\
      Forall2 (fun item x => RequestBody.map_tool item = Ok x) items xs.
Proof.
  induction items as [|item rest IH]; intros acc ts; cbn.
  - intros [= <-]. exists []. now rewrite app_nil_r.
  - destruct (RequestBody.map_tool item) as [x|e] eqn:E; cbn; [|easy].
    intros H. destruct (IH _ _ H) as (xs & -> & Hxs).
    exists (x :: xs). rewrite <- app_assoc. split; [reflexivity|].
    now constructor.
Qed.

Lemma map_tools_loop_raises (items : list json) (item : json) (e : exn) :
  In item items -> RequestBody.map_tool item = Raise e ->
  forall acc, exists e', RequestBody.map_tools_loop items acc = Raise e'.
Proof.
  induction items as [|i rest IH]; intros Hin Hbad acc; [easy|].
  cbn. destruct Hin as [->|Hin].
  - rewrite Hbad. cbn. eauto.
  - destruct (RequestBody.map_tool i); cbn; eauto.
Qed.

Lemma new_raises_with_map_tools (values : dict) (e : exn) :
  RequestBody.map_tools values = Raise e ->
  exists e', RequestBody.new validate_int validate_float values = Raise e'.
Proof.
  intros H. unfold RequestBody.new. rewrite H. destruct e; eauto.
Qed.

Lemma new_tools (values : dict) (rb : RequestBody.t) :
  RequestBody.new validate_int validate_float values = Ok rb ->
  exists ts, RequestBody.map_tools values = Ok ts /\
             RequestBody.tools rb = Some ts.
Proof.
  unfold RequestBody.new.
  destruct (RequestBody.map_tools values) as [ts|e]; [|now destruct e].
  intros H. exists ts. split; [reflexivity|].
  repeat match type of H with
         | bind ?m _ = Ok _ => destruct m; cbn [bind] in H; [|discriminate]
         end.
  now injection H as <-.
Qed.

(** C5, as amended.  An object with a string ["type"] and, under
    ["function"], an object with a string ["name"], a string
    ["description"] and ["parameters"] is classified as the generic
    [Tool] carrying those values.  An object without ["function"] that
    has ["input_schema"] and a string ["name"] and ["description"] is
    classified as the [AnthropicTool] built from the three.  A value that
    contains neither ["function"] nor ["input_schema"] raises the
    unknown-format [ValueError]; and no envelope is built from tools one
    of which does not classify. *)
Theorem tool_classification :
  (forall kw f ty n d p,
     Dict.get (lit "type") kw = Some (JStr ty) ->
     Dict.get (lit "function") kw = Some (JObj f) ->
     Dict.get (lit "name") f = Some (JStr n) ->
     Dict.get (lit "description") f = Some (JStr d) ->
     Dict.get (lit "parameters") f = Some p ->
     RequestBody.map_tool (JObj kw)
       = Ok (Generic (Tool.mk ty (Function.mk n d p)))) /\
  (forall kw n d i,
     Dict.get (lit "function") kw = None ->
     Dict.get (lit "input_schema") kw = Some i ->
     Dict.get (lit "name") kw = Some (JStr n) ->
     Dict.get (lit "description") kw = Some (JStr d) ->
     RequestBody.map_tool (JObj kw)
       = Ok (Anthropic (AnthropicTool.mk n d i))) /\
  (forall x,
     contains (lit "function") x = Ok false ->
     contains (lit "input_schema") x = Ok false ->
     RequestBody.map_tool x = Raise ValueError) /\
  (forall x e values items,
     RequestBody.map_tool x = Raise e ->
     Dict.get (lit "tools") values = Some (JArr items) -> In x items ->
     exists e', RequestBody.new validate_int validate_float values = Raise e').
Proof.
  split; [|split; [|split]].
  - intros kw f ty n d p Hty Hf Hn Hd Hp.
    unfold RequestBody.map_tool, contains, Dict.mem. rewrite Hf. cbn [bind].
    unfold Tool.new, required_str. rewrite Hty, Hf. cbn [bind].
    unfold Function.validate, required_str, required_any.
    now rewrite Hn, Hd, Hp.
  - intros kw n d i Hf Hi Hn Hd.
    unfold RequestBody.map_tool, contains, Dict.mem. rewrite Hf, Hi.
    cbn [bind]. unfold getitem. now rewrite Hn, Hd, Hi.
  - intros x Hf Hi. unfold RequestBody.map_tool. now rewrite Hf, Hi.
  - intros x e values items Hx Htools Hin.
    destruct (map_tools_loop_raises items x Hin Hx []) as [e' He].
    eapply new_raises_with_map_tools.
    unfold RequestBody.map_tools. rewrite Htools. exact He.
Qed.

(** C10.  Without a ["tools"] keyword the root validator maps the empty
    list: the construction does what it does with an empty ["tools"]
    list, and an envelope that is built has [tools] equal to the empty
    list and dumps ["tools"] as an empty array; no envelope that is built
    has [tools] equal to [None]; and a ["tools"] keyword that is [None]
    makes the construction raise, the loop having nothing to iterate. *)
Theorem tools_default_is_the_empty_list (values : dict) :
  (Dict.get (lit "tools") values = None ->
     RequestBody.map_tools values = Ok [] /\
     RequestBody.new validate_int validate_float values
     = RequestBody.new validate_int validate_float
         (values ++ [(lit "tools", JArr [])]) /\
     forall rb, RequestBody.new validate_int validate_float values = Ok rb ->
       RequestBody.tools rb = Some [] /\
       getitem (RequestBody.dump rb) (lit "tools") = Ok (JArr [])) /\
  (forall rb, RequestBody.new validate_int validate_float values = Ok rb ->
     RequestBody.tools rb <> None) /\
  (Dict.get (lit "tools") values = Some JNull ->
     RequestBody.new validate_int validate_float values = Raise TypeError).
Proof.
  split; [|split].
  - intros Hno.
    assert (Hmap : RequestBody.map_tools values = Ok [])
      by (unfold RequestBody.map_tools; now rewrite Hno).
    split; [exact Hmap|]. split.
    { unfold RequestBody.new, RequestBody.map_tools, required_str,
        RequestBody.required_messages.
      rewrite (@Dict.get_app_absent _ (JArr []) _ Hno), Hno.
      now rewrite !Dict.get_app_other by reflexivity. }
    intros rb Hrb. destruct (new_tools _ Hrb) as (ts & Hts & Htools).
    rewrite Hmap in Hts. injection Hts as <-.
    split; [exact Htools|].
    unfold RequestBody.dump, RequestBody.fields. rewrite Htools. reflexivity.
  - intros rb Hrb. destruct (new_tools _ Hrb) as (ts & _ & ->). discriminate.
  - intros Hnull. unfold RequestBody.new, RequestBody.map_tools.
    now rewrite Hnull.
Qed.

End EnvelopeTheorems.

(** ** Writing an envelope and reading it back *)

Section RoundTrip.

Variable json_loads : str -> option json.

(** pydantic's JSON writer, applied to the dumped model: the text it
    returns, or the exception it raises on a value it cannot write (a
    string that holds a lone surrogate is one). *)
Variable to_json : json -> result str.

Variable validate_int : json -> option Z.
Variable validate_float : json -> option float.

(** [RequestBody] applied to the unpacked [json.loads(text)]. *)
Definition reload (text : str) : result RequestBody.t :=
  match json_loads text with
  | None => Raise JSONDecodeError
  | Some (JObj values) => RequestBody.new validate_int validate_float values
  | Some _ => Raise TypeError
  end.

Lemma map_tool_dump (x : ToolSchema) :
  RequestBody.map_tool (dump_tool x) = Ok x.
Proof. destruct x as [[ty [n d p]]|[n d i]]; reflexivity. Qed.

Lemma map_tools_dump (ts : list ToolSchema) :
  Forall2 (fun item x => RequestBody.map_tool item = Ok x)
          (List.map dump_tool ts) ts.
Proof.
  induction ts as [|x ts IH]; cbn; constructor;
    [apply map_tool_dump | exact IH].
Qed.

Lemma validate_messages_dump (ms : list dict) :
  RequestBody.validate_messages (List.map JObj ms) = Some ms.
Proof.
  induction ms as [|m ms IH]; [reflexivity|]. cbn. now rewrite IH.
Qed.

Lemma optional_dump {A} (validate : json -> option A) (inject : A -> json)
    (default o : option A) :
  (forall a, inject a <> JNull) ->
  (forall a, validate (inject a) = Some a) ->
  RequestBody.optional validate default (Some (dump_option inject o)) = Ok o.
Proof.
  intros Hnn Hv. destruct o as [a|]; [|reflexivity]. cbn.
  specialize (Hnn a). specialize (Hv a).
  destruct (inject a); try congruence; now rewrite Hv.
Qed.

(** Constructing from the dumped fields gives the envelope back. *)
Lemma new_fields (rb : RequestBody.t) (ts : list ToolSchema) :
  (forall z, validate_int (JInt z) = Some z) ->
  (forall f, validate_float (JFloat f) = Some f) ->
  RequestBody.tools rb = Some ts ->
  RequestBody.new validate_int validate_float (RequestBody.fields rb) = Ok rb.
Proof.
  intros Hint Hfloat Htools.
  destruct rb as [m ms mt tp tl tc]. cbn in Htools. subst tl.
  unfold RequestBody.new, RequestBody.map_tools.
  change (Dict.get (lit "tools") (RequestBody.fields _))
    with (Some (JArr (List.map dump_tool ts))).
  cbn [iterate bind].
  rewrite (map_tools_loop_ok [] (map_tools_dump ts)). cbn [app].
  change (required_str "model" (RequestBody.fields _)) with (Ok (A := str) m).
  cbn [bind].
  unfold RequestBody.required_messages.
  change (Dict.get (lit "messages") (RequestBody.fields _))
    with (Some (JArr (List.map JObj ms))).
  cbv beta iota. rewrite validate_messages_dump. cbn [bind].
  change (Dict.get (lit "max_tokens") (RequestBody.fields _))
    with (Some (dump_option JInt mt)).
  rewrite (optional_dump validate_int JInt) by (assumption || discriminate).
  change (Dict.get (lit "temperature") (RequestBody.fields _))
    with (Some (dump_option JFloat tp)).
  rewrite (optional_dump validate_float JFloat) by (assumption || discriminate).
  change (Dict.get (lit "tool_choice") (RequestBody.fields _))
    with (Some (dump_option JObj tc)).
  rewrite (optional_dump RequestBody.validate_dict JObj)
    by (reflexivity || discriminate).
  reflexivity.
Qed.


(** X8.  Every envelope that can be built reads back, whatever its
    tools: with Anthropic tools, a mix of both variants or none at all,
    constructing from the dumped fields gives the envelope again, and so
    does constructing from the written text when the decoder reads that
    text back to what was dumped. *)
Theorem built_envelope_reads_back (values : dict) (rb : RequestBody.t) :
  RequestBody.new validate_int validate_float values = Ok rb ->
  (forall z, validate_int (JInt z) = Some z) ->
  (forall f, validate_float (JFloat f) = Some f) ->
  RequestBody.new validate_int validate_float (RequestBody.fields rb)
  = Ok rb /\
  (forall text,
     to_json (RequestBody.dump rb) = Ok text ->
     json_loads text = Some (RequestBody.dump rb) ->
     reload text = Ok rb).
Proof.
  intros Hnew Hint Hfloat.
  destruct (new_tools _ _ _ Hnew) as (ts & _ & Hts).
  pose proof (new_fields rb Hint Hfloat Hts) as Hback.
  split; [exact Hback|].
  intros text _ Hread. unfold reload. now rewrite Hread.
Qed.

End RoundTrip.

(** ** Substring search and the provider test *)

Lemma startswith_spec (s p : str) :
  startswith s p = true <-> exists post, s = p ++ post.
Proof.
  revert s. induction p as [|a p IH]; intros s; cbn.
  - split; [intros _; now exists s | reflexivity].
  - destruct s as [|b s].
    + split; [discriminate | intros [post [=]]].
    + rewrite andb_true_iff, N.eqb_eq, IH. split.
      * intros [-> [post ->]]. now exists post.
      * intros [post [= -> ->]]. split; [reflexivity | now exists post].
Qed.

Lemma str_in_spec (p s : str) :
  str_in p s = true <-> exists pre post, s = pre ++ p ++ post.
Proof.
  induction s as [|c s IH].
  - cbn. rewrite orb_false_r, startswith_spec. split.
    + intros [post H]. now exists [], post.
    + intros (pre & post & H). destruct pre; [now exists post|discriminate].
  - cbn [str_in]. rewrite orb_true_iff, startswith_spec, IH. split.
    + intros [[post H]|(pre & post & ->)].
      * now exists [], post.
      * now exists (c :: pre), post.
    + intros (pre & post & H). destruct pre as [|c' pre].
      * left. now exists post.
      * injection H as -> ->. right. now exists pre, post.
Qed.

(** ** Properties of the batch writer *)



(** The two shapes of a tool object, as the root validator tells them
    apart. *)
Definition generic_shaped (item : json) : Prop :=
  contains (lit "function") item = Ok true.

Definition anthropic_shaped (item : json) : Prop :=
  contains (lit "function") item = Ok false /\
  contains (lit "input_schema") item = Ok true.

Lemma map_tool_generic (item : json) (x : ToolSchema) :
  generic_shaped item -> RequestBody.map_tool item = Ok x ->
  is_generic x = true.
Proof.
  unfold generic_shaped, RequestBody.map_tool. intros ->. cbn [bind].
  destruct (Tool.new item); cbn [bind]; [|discriminate].
  now intros [= <-].
Qed.

Lemma map_tool_anthropic (item : json) (x : ToolSchema) :
  anthropic_shaped item -> RequestBody.map_tool item = Ok x ->
  is_anthropic x = true.
Proof.
  unfold anthropic_shaped, RequestBody.map_tool. intros [-> ->]. cbn [bind].
  intros H.
  repeat match type of H with
         | bind ?m _ = Ok _ => destruct m; cbn [bind] in H; [|discriminate]
         end.
  now injection H as <-.
Qed.

Lemma map_tools_shape (shaped : json -> Prop) (is_shape : ToolSchema -> bool)
    (kwargs : dict) (items : list json) (ts : list ToolSchema) :
  (forall item x, shaped item -> RequestBody.map_tool item = Ok x ->
                  is_shape x = true) ->
  Dict.get (lit "tools") kwargs = Some (JArr items) ->
  Forall shaped items ->
  RequestBody.map_tools kwargs = Ok ts ->
  forallb is_shape ts = true.
Proof.
  intros Hshape Htools Hitems Hmap.
  unfold RequestBody.map_tools in Hmap. rewrite Htools in Hmap.
  cbn [iterate bind] in Hmap.
  destruct (map_tools_loop_inv _ _ Hmap) as (xs & -> & Hxs). cbn [app].
  clear Htools Hmap.
  induction Hxs as [|item x items' xs Hx _ IH]; [reflexivity|].
  inversion Hitems; subst. cbn. rewrite (Hshape item x) by assumption.
  now apply IH.
Qed.

(** ** More on the request envelope *)

Section EnvelopeFields.

Variable validate_int : json -> option Z.
Variable validate_float : json -> option float.

Lemma required_str_raises (k : string) (kw : dict) (e : exn) :
  required_str k kw = Raise e -> e = ValidationError.
Proof.
  unfold required_str.
  destruct (Dict.get (lit k) kw) as [[| | | | | |]|]; congruence.
Qed.

Lemma validate_messages_rejects (l : list json) (x : json) :
  In x l -> (forall d, x <> JObj d) -> RequestBody.validate_messages l = None.
Proof.
  induction l as [|y l IH]; intros Hin Hx; [easy|].
  destruct Hin as [->|Hin].
  - cbn. destruct x; try reflexivity. now destruct (Hx d).
  - cbn. destruct y; try reflexivity. now rewrite (IH Hin Hx).
Qed.

(** What a successful construction read from its keywords. *)
Lemma new_inv (values : dict) (rb : RequestBody.t) :
  RequestBody.new validate_int validate_float values = Ok rb ->
  exists ts,
    RequestBody.map_tools values = Ok ts /\
    required_str "model" values = Ok (RequestBody.model rb) /\
    RequestBody.required_messages values = Ok (RequestBody.messages rb) /\
    RequestBody.optional validate_int (Some 1000%Z)
      (Dict.get (lit "max_tokens") values) = Ok (RequestBody.max_tokens rb) /\
    RequestBody.optional validate_float (Some 1%float)
      (Dict.get (lit "temperature") values)
    = Ok (RequestBody.temperature rb) /\
    RequestBody.optional RequestBody.validate_dict None
      (Dict.get (lit "tool_choice") values)
    = Ok (RequestBody.tool_choice rb) /\
    RequestBody.tools rb = Some ts.
Proof.
  unfold RequestBody.new.
  destruct (RequestBody.map_tools values) as [ts|e]; [|now destruct e].
  intros H. exists ts. split; [reflexivity|].
  repeat match type of H with
         | bind ?m _ = Ok _ => destruct m; cbn [bind] in H; [|discriminate]
         end.
  injection H as <-. now repeat split.
Qed.

(** X7.  The tools of a built envelope are the classifications of the
    given tool objects, one per object and in the same order, whatever
    mix of the two shapes the list holds; an entry is the generic [Tool]
    exactly when its object contains "function", whether or not it also
    has "input_schema". *)
Theorem tools_are_classified_in_order (values : dict) (items : list json)
    (rb : RequestBody.t) :
  Dict.get (lit "tools") values = Some (JArr items) ->
  RequestBody.new validate_int validate_float values = Ok rb ->
  exists ts,
    RequestBody.tools rb = Some ts /\
    Forall2
      (fun item x =>
         RequestBody.map_tool item = Ok x /\
         (is_generic x = true <-> contains (lit "function") item = Ok true))
      items ts.
Proof.
  intros Htools Hnew.
  destruct (new_tools _ _ _ Hnew) as (ts & Hmap & Hts).
  exists ts. split; [exact Hts|].
  unfold RequestBody.map_tools in Hmap. rewrite Htools in Hmap.
  cbn [iterate bind] in Hmap.
  destruct (map_tools_loop_inv _ _ Hmap) as (xs & -> & Hxs). cbn [app].
  eapply Forall2_impl; [|exact Hxs]. intros item x Hx. split; [exact Hx|].
  split.
  - intros Hg. unfold RequestBody.map_tool in Hx.
    destruct (contains (lit "function") item) as [[|]|e]; cbn [bind] in Hx;
      [reflexivity| |discriminate].
    repeat match type of Hx with
           | bind ?m _ = Ok _ =>
               destruct m as [[|]|]; cbn [bind] in Hx; try discriminate
           | bind ?m _ = Ok _ =>
               destruct m; cbn [bind] in Hx; [|discriminate]
           end.
    injection Hx as <-. discriminate.
  - intros Hc. exact (map_tool_generic Hc Hx).
Qed.

(** X9.  [model] and [messages] are required: when the tools classify,
    keywords without a string "model", without a list "messages", or with
    a message that is not an object make the construction raise a
    [ValidationError]. *)
Theorem model_and_messages_are_required (values : dict)
    (ts : list ToolSchema) :
  RequestBody.map_tools values = Ok ts ->
  ((forall s, Dict.get (lit "model") values <> Some (JStr s)) ->
   RequestBody.new validate_int validate_float values
   = Raise ValidationError) /\
  ((forall l, Dict.get (lit "messages") values <> Some (JArr l)) ->
   RequestBody.new validate_int validate_float values
   = Raise ValidationError) /\
  (forall l x,
     Dict.get (lit "messages") values = Some (JArr l) ->
     In x l -> (forall d, x <> JObj d) ->
     RequestBody.new validate_int validate_float values
     = Raise ValidationError).
Proof.
  intros Hmap. unfold RequestBody.new. rewrite Hmap.
  assert (Hmodel : forall k : str -> result RequestBody.t,
             (m <- required_str "model" values ;; k m) = Raise ValidationError
             \/ exists m, required_str "model" values = Ok m).
  { intros k. destruct (required_str "model" values) as [m|e] eqn:E.
    - right. now exists m.
    - left. cbn. now rewrite (required_str_raises _ _ E). }
  split; [|split].
  - intros Hno. unfold required_str.
    destruct (Dict.get (lit "model") values) as [[| | | |s| |]|];
      try reflexivity.
    now destruct (Hno s).
  - intros Hno.
    match goal with |- bind _ ?k = _ => destruct (Hmodel k) as [->|[m ->]] end;
      [reflexivity|].
    cbn [bind]. unfold RequestBody.required_messages.
    destruct (Dict.get (lit "messages") values) as [[| | | | |l|]|];
      try reflexivity.
    now destruct (Hno l).
  - intros l x Hl Hin Hx.
    match goal with |- bind _ ?k = _ => destruct (Hmodel k) as [->|[m ->]] end;
      [reflexivity|].
    cbn [bind]. unfold RequestBody.required_messages.
    now rewrite Hl, (validate_messages_rejects _ Hin Hx).
Qed.

(** X10.  An envelope built without "max_tokens", "temperature" or
    "tool_choice" has 1000, 1.0 and no tool choice; an explicit [None]
    for "max_tokens" or "temperature" is kept as [None] and is not
    replaced by the default. *)
Theorem absent_fields_take_their_defaults (values : dict)
    (rb : RequestBody.t) :
  RequestBody.new validate_int validate_float values = Ok rb ->
  (Dict.get (lit "max_tokens") values = None ->
   RequestBody.max_tokens rb = Some 1000%Z) /\
  (Dict.get (lit "temperature") values = None ->
   RequestBody.temperature rb = Some 1%float) /\
  (Dict.get (lit "tool_choice") values = None ->
   RequestBody.tool_choice rb = None) /\
  (Dict.get (lit "max_tokens") values = Some JNull ->
   RequestBody.max_tokens rb = None) /\
  (Dict.get (lit "temperature") values = Some JNull ->
   RequestBody.temperature rb = None).
Proof.
  intros Hnew.
  destruct (new_inv _ Hnew) as (ts & _ & _ & _ & Hmt & Htp & Htc & _).
  repeat split; intros H; rewrite H in *; cbn in *; congruence.
Qed.

(** X14.  An object that has a "function" key is never classified as an
    [AnthropicTool] and never reported as an unknown format: either it
    has a string "type" and its "function" is an object with a string
    "name", a string "description" and "parameters", and it becomes the
    [Tool] with those values, or the classification raises a
    [ValidationError]. *)
Theorem function_keyed_objects_become_tools_or_fail (kw : dict) (v : json) :
  Dict.get (lit "function") kw = Some v ->
  (exists ty f n d p,
     Dict.get (lit "type") kw = Some (JStr ty) /\
     v = JObj f /\
     Dict.get (lit "name") f = Some (JStr n) /\
     Dict.get (lit "description") f = Some (JStr d) /\
     Dict.get (lit "parameters") f = Some p /\
     RequestBody.map_tool (JObj kw)
     = Ok (Generic (Tool.mk ty (Function.mk n d p)))) \/
  RequestBody.map_tool (JObj kw) = Raise ValidationError.
Proof.
  intros Hf.
  unfold RequestBody.map_tool, contains, Dict.mem. rewrite Hf. cbn [bind].
  unfold Tool.new, required_str. rewrite Hf.
  destruct (Dict.get (lit "type") kw) as [[| | | |ty| |]|];
    try (right; reflexivity).
  cbn [bind]. unfold Function.validate.
  destruct v as [| | | | | |f]; try (right; reflexivity).
  unfold required_str, required_any.
  destruct (Dict.get (lit "name") f) as [[| | | |n| |]|] eqn:Hn;
    try (right; reflexivity).
  destruct (Dict.get (lit "description") f) as [[| | | |d| |]|] eqn:Hd;
    try (right; reflexivity).
  destruct (Dict.get (lit "parameters") f) as [p|] eqn:Hp;
    [|right; reflexivity].
  left. exists ty, f, n, d, p. now repeat split.
Qed.

(** X15.  An object without "function" that has "input_schema" is read
    by subscripts, so what is missing and what is ill-typed fail
    differently: without "name" or without "description" the
    classification raises a [KeyError], with both present but not both
    strings it raises a [ValidationError], and otherwise it yields the
    [AnthropicTool] of the three values. *)
Theorem input_schema_objects_become_anthropic_tools_or_fail (kw : dict)
    (i : json) :
  Dict.get (lit "function") kw = None ->
  Dict.get (lit "input_schema") kw = Some i ->
  RequestBody.map_tool (JObj kw)
  = match Dict.get (lit "name") kw, Dict.get (lit "description") kw with
    | None, _ => Raise KeyError
    | Some _, None => Raise KeyError
    | Some (JStr n), Some (JStr d) => Ok (Anthropic (AnthropicTool.mk n d i))
    | Some _, Some _ => Raise ValidationError
    end.
Proof.
  intros Hf Hi.
  unfold RequestBody.map_tool, contains, Dict.mem. rewrite Hf, Hi.
  cbn [bind]. unfold getitem. rewrite Hi.
  destruct (Dict.get (lit "name") kw) as [n|]; [|reflexivity].
  destruct (Dict.get (lit "description") kw) as [d|]; cbn [bind];
    [|now destruct n].
  now destruct n, d.
Qed.

End EnvelopeFields.

(** ** The batch writer (lines 137-185) *)

(** [instructor.Mode], the two members the writer uses. *)
Inductive Mode := TOOLS | ANTHROPIC_TOOLS.

(** *** The request file, as the batch endpoints read it *)

(** The text of a file that holds the given lines, each ended by a line
    feed. *)
Definition lines_text (texts : list str) : str :=
  List.concat (List.map (fun text => text ++ [10%N]) texts).

(** The value that one line holds: the identifier and, under "params",
    the six fields of the request. *)
Definition wire_line (custom_id model : str) (messages : list dict)
    (max_tokens : option Z) (temperature : option float) (tools : list json)
    (tool_choice : option dict) : json :=
  JObj [(lit "custom_id", JStr custom_id);
        (lit "params",
         JObj [(lit "model", JStr model);
               (lit "messages", JArr (List.map JObj messages));
               (lit "max_tokens",
                match max_tokens with Some z => JInt z | None => JNull end);
               (lit "temperature",
                match temperature with Some f => JFloat f | None => JNull end);
               (lit "tools", JArr tools);
               (lit "tool_choice",
                match tool_choice with Some d => JObj d | None => JNull end)])].

(** A generic tool entry written for the tool object [item]: the type and,
    under "function", the name, the description and the parameters that
    [item] holds. *)
Definition generic_entry (item tool : json) : Prop :=
  exists ty n d p,
    getpath item [K "type"] = Ok (JStr ty) /\
    getpath item [K "function"; K "name"] = Ok (JStr n) /\
    getpath item [K "function"; K "description"] = Ok (JStr d) /\
    getpath item [K "function"; K "parameters"] = Ok p /\
    tool = JObj [(lit "type", JStr ty);
                 (lit "function",
                  JObj [(lit "name", JStr n);
                        (lit "description", JStr d);
                        (lit "parameters", p)])].

(** An Anthropic tool entry written for the tool object [item]: the name,
    the description and the input schema that [item] holds, and no
    function wrapper. *)
Definition anthropic_entry (item tool : json) : Prop :=
  exists n d i,
    getpath item [K "name"] = Ok (JStr n) /\
    getpath item [K "description"] = Ok (JStr d) /\
    getpath item [K "input_schema"] = Ok i /\
    tool = JObj [(lit "name", JStr n);
                 (lit "description", JStr d);
                 (lit "input_schema", i)].

Lemma map_tool_generic_entry (item : json) (x : ToolSchema) :
  generic_shaped item -> RequestBody.map_tool item = Ok x ->
  generic_entry item (dump_tool x).
Proof.
  unfold generic_shaped, RequestBody.map_tool. intros ->. cbn [bind].
  destruct item as [| | | | |l|kw]; try discriminate.
  unfold Tool.new, required_str.
  destruct (Dict.get (lit "type") kw) as [[| | | |ty| |]|] eqn:Ety;
    try discriminate.
  cbn [bind].
  destruct (Dict.get (lit "function") kw) as [[| | | | | |f]|] eqn:Ef;
    try discriminate.
  unfold Function.validate, required_str, required_any.
  destruct (Dict.get (lit "name") f) as [[| | | |n| |]|] eqn:En;
    try discriminate.
  cbn [bind].
  destruct (Dict.get (lit "description") f) as [[| | | |d| |]|] eqn:Ed;
    try discriminate.
  cbn [bind].
  destruct (Dict.get (lit "parameters") f) as [p|] eqn:Ep; try discriminate.
  cbn [bind]. intros [= <-].
  exists ty, n, d, p. cbn [getpath getsub getitem bind].
  rewrite Ety, Ef. cbn [getitem bind]. rewrite En, Ed, Ep.
  repeat split; reflexivity.
Qed.

Lemma map_tool_anthropic_entry (item : json) (x : ToolSchema) :
  anthropic_shaped item -> RequestBody.map_tool item = Ok x ->
  anthropic_entry item (dump_tool x).
Proof.
  unfold anthropic_shaped, RequestBody.map_tool. intros [-> ->]. cbn [bind].
  destruct (getitem item (lit "name")) as [n|] eqn:En; try discriminate.
  cbn [bind].
  destruct (getitem item (lit "description")) as [d|] eqn:Ed;
    try discriminate.
  cbn [bind].
  destruct (getitem item (lit "input_schema")) as [i|] eqn:Ei;
    try discriminate.
  cbn [bind]. unfold AnthropicTool.new.
  destruct n as [| | | |n| |]; try discriminate.
  destruct d as [| | | |d| |]; try discriminate.
  cbn [bind]. intros [= <-].
  exists n, d, i. cbn [getpath getsub bind]. rewrite En, Ed, Ei.
  repeat split; reflexivity.
Qed.

Lemma map_tools_entries (shaped : json -> Prop) (entry : json -> json -> Prop)
    (kwargs : dict) (items : list json) (ts : list ToolSchema) :
  (forall item x, shaped item -> RequestBody.map_tool item = Ok x ->
                  entry item (dump_tool x)) ->
  Dict.get (lit "tools") kwargs = Some (JArr items) ->
  Forall shaped items ->
  RequestBody.map_tools kwargs = Ok ts ->
  Forall2 entry items (List.map dump_tool ts).
Proof.
  intros Hentry Htools Hitems Hmap.
  unfold RequestBody.map_tools in Hmap. rewrite Htools in Hmap.
  cbn [iterate bind] in Hmap.
  destruct (map_tools_loop_inv _ _ Hmap) as (xs & -> & Hxs). cbn [app].
  clear Htools Hmap.
  induction Hxs as [|item x items' xs Hx _ IH]; [constructor|].
  inversion Hitems; subst. cbn [List.map]. constructor.
  - now apply Hentry.
  - now apply IH.
Qed.




Section Writer.

(** The response model classes a caller may pass. *)
Variable RM : Type.

(** [handle_response_model(response_model=..., mode=...)]: the keyword
    dictionary it returns as the second component of its result. *)
Variable handle_response_model : RM -> Mode -> result dict.

(** [str(uuid.uuid4())] at the n-th call since the writer started. *)
Variable uuid4 : nat -> str.

(** pydantic's JSON writer, applied to the dumped model: the text it
    returns, or the exception it raises on a value it cannot write (a
    string that holds a lone surrogate is one). *)
Variable to_json : json -> result str.

(** [file.write(text)] on the file opened for writing: [Ok tt] when the
    text is appended; an exception, with nothing appended, when the
    encoding of the file cannot hold the text. *)
Variable file_write : str -> result unit.

Variable validate_int : json -> option Z.
Variable validate_float : json -> option float.

Definition model_dump_json (batch_model : BatchModel.t) : result str :=
  to_json (BatchModel.dump batch_model).

(** The keywords that the call of [RequestBody] on lines 166-172 and
    177-183 spells out. *)
Definition explicit_keywords (model : str) (messages : list dict)
    (max_tokens : option Z) (temperature : option float) : dict :=
  [(lit "model", JStr model);
   (lit "messages", JArr (List.map JObj messages));
   (lit "max_tokens", dump_option JInt max_tokens);
   (lit "temperature", dump_option JFloat temperature)].

(** [RequestBody(model=..., messages=..., max_tokens=..., temperature=...,
    **kwargs)]: a keyword given twice is a [TypeError] of the call. *)
Definition RequestBody_call (model : str) (messages : list dict)
    (max_tokens : option Z) (temperature : option float) (kwargs : dict)
    : result RequestBody.t :=
  let explicit := explicit_keywords model messages max_tokens temperature in
  if existsb (fun k => Dict.mem k kwargs) (Dict.keys explicit)
  then Raise TypeError
  else RequestBody.new validate_int validate_float (explicit ++ kwargs).

(** The [for] loop inside [with open(file_path, "w")]: [n] identifiers
    have been drawn and [file] has been written so far.  Line 185 writes
    inside the loop: when building, serialising or writing a record
    raises, the lines written before it stay in the file. *)
Fixpoint write_loop (use_anthropic : bool) (kwargs : dict) (model : str)
    (max_tokens : option Z) (temperature : option float)
    (messages_batch : list (list dict)) (n : nat) (file : str)
    : str * result unit :=
  match messages_batch with
  | [] => (file, Ok tt)
  | messages :: rest =>
      let built :=
        if use_anthropic then
          let custom_id := uuid4 n in
          params <- RequestBody_call model messages max_tokens temperature
                      kwargs ;;
          Ok (BatchModel.mk custom_id params)
        else
          let custom_id := uuid4 n in
          params <- RequestBody_call model messages max_tokens temperature
                      kwargs ;;
          Ok (BatchModel.mk custom_id params)
      in
      match built with
      | Raise e => (file, Raise e)
      | Ok batch_model =>
          match model_dump_json batch_model with
          | Raise e => (file, Raise e)
          | Ok text =>
              match file_write (text ++ [10%N]) with
              | Raise e => (file, Raise e)
              | Ok _ =>
                  write_loop use_anthropic kwargs model max_tokens temperature
                    rest (S n) (file ++ text ++ [10%N])
              end
          end
      end
  end.

(** Lines 149-159: the provider test and the derivation of the shared
    keywords. *)
Definition use_anthropic_of (model : str) : bool :=
  str_in (lit "claude") (lower model).

Definition shared_kwargs (use_anthropic : bool) (response_model : RM)
    : result dict :=
  if use_anthropic then
    kwargs <- handle_response_model response_model ANTHROPIC_TOOLS ;;
    popped <- Dict.pop (lit "messages") kwargs ;;
    Ok (snd popped)
  else
    handle_response_model response_model TOOLS.

(** [create_from_messages].  The first component is the text of the file
    at [file_path] when the call ends, [None] when the file was never
    opened; the second is [Ok tt] when the call returns. *)
Definition create_from_messages (messages_batch : list (list dict))
    (model : str) (response_model : RM)
    (max_tokens : option Z) (temperature : option float)
    : option str * result unit :=
  let use_anthropic := use_anthropic_of model in
  match shared_kwargs use_anthropic response_model with
  | Raise e => (None, Raise e)
  | Ok kwargs =>
      let (file, r) :=
        write_loop use_anthropic kwargs model max_tokens temperature
          messages_batch 0 [] in
      (Some file, r)
  end.

(** *** The lines a call is to write *)

(** The values of the lines for a batch, in input order: the line of the
    conversation at position [k] holds the identifier of draw [i + k],
    that conversation's messages and the shared fields. *)
Definition wire_lines (model : str) (max_tokens : option Z)
    (temperature : option float) (tools : list json) (tool_choice : option dict)
    (i : nat) (messages_batch : list (list dict)) : list json :=
  List.map
    (fun numbered =>
       wire_line (uuid4 (fst numbered)) model (snd numbered) max_tokens
         temperature tools tool_choice)
    (combine (seq i (List.length messages_batch)) messages_batch).

(** The value is serialised to [text] and the line is appended to the
    file. *)
Definition writes (value : json) (text : str) : Prop :=
  to_json value = Ok text /\ file_write (text ++ [10%N]) = Ok tt.

(** The shared keywords are ones the envelope accepts: none of them is
    spelled out by the call as well, the root validator maps their tools
    to [ts], and their tool choice validates to [tc]. *)
Definition accepted (kwargs : dict) (ts : list ToolSchema)
    (tc : option dict) : Prop :=
  existsb (fun k => Dict.mem k kwargs)
    [lit "model"; lit "messages"; lit "max_tokens"; lit "temperature"]
    = false /\
  RequestBody.map_tools kwargs = Ok ts /\
  RequestBody.optional RequestBody.validate_dict None
    (Dict.get (lit "tool_choice") kwargs) = Ok tc.

(** The two sampling arguments pass the validation of their fields. *)
Definition sampling_accepted (max_tokens : option Z)
    (temperature : option float) : Prop :=
  RequestBody.optional validate_int (Some 1000%Z)
    (Some (dump_option JInt max_tokens)) = Ok max_tokens /\
  RequestBody.optional validate_float (Some 1%float)
    (Some (dump_option JFloat temperature)) = Ok temperature.

(** *** Facts about the writer *)

(** The provider test is a case-insensitive search: it holds exactly
    when a stretch of the model name lowers to the marker. *)
Lemma use_anthropic_of_spec (model : str) :
  use_anthropic_of model = true <->
  exists pre marker post,
    model = pre ++ marker ++ post /\ lower marker = lit "claude".
Proof.
  unfold use_anthropic_of. rewrite str_in_spec. unfold lower. split.
  - intros (pre & post & H).
    apply map_eq_app in H as (pre' & rest & -> & _ & H).
    apply map_eq_app in H as (marker & post' & -> & Hm & _).
    now exists pre', marker, post'.
  - intros (pre & marker & post & -> & Hm).
    exists (List.map lower_char pre), (List.map lower_char post).
    now rewrite !map_app, Hm.
Qed.

Lemma RequestBody_call_ok (model : str) (messages : list dict)
    (max_tokens : option Z) (temperature : option float) (kwargs : dict)
    (ts : list ToolSchema) (tc : option dict) :
  accepted kwargs ts tc ->
  sampling_accepted max_tokens temperature ->
  RequestBody_call model messages max_tokens temperature kwargs
  = Ok (RequestBody.mk model messages max_tokens temperature (Some ts) tc).
Proof.
  intros (Hclash & Hmap & Htc) (Hmt & Htp).
  unfold RequestBody_call.
  change (Dict.keys (explicit_keywords model messages max_tokens temperature))
    with [lit "model"; lit "messages"; lit "max_tokens"; lit "temperature"].
  rewrite Hclash.
  unfold RequestBody.new, RequestBody.map_tools.
  change (Dict.get (lit "tools") (explicit_keywords _ _ _ _ ++ kwargs))
    with (Dict.get (lit "tools") kwargs).
  unfold RequestBody.map_tools in Hmap. rewrite Hmap.
  change (required_str "model" (explicit_keywords _ _ _ _ ++ kwargs))
    with (Ok (A := str) model).
  cbn [bind]. unfold RequestBody.required_messages.
  change (Dict.get (lit "messages") (explicit_keywords _ _ _ _ ++ kwargs))
    with (Some (JArr (List.map JObj messages))).
  cbv beta iota. rewrite validate_messages_dump. cbn [bind].
  change (Dict.get (lit "max_tokens") (explicit_keywords _ _ _ _ ++ kwargs))
    with (Some (dump_option JInt max_tokens)).
  rewrite Hmt. cbn [bind].
  change (Dict.get (lit "temperature") (explicit_keywords _ _ _ _ ++ kwargs))
    with (Some (dump_option JFloat temperature)).
  rewrite Htp. cbn [bind].
  change (Dict.get (lit "tool_choice") (explicit_keywords _ _ _ _ ++ kwargs))
    with (Dict.get (lit "tool_choice") kwargs).
  now rewrite Htc.
Qed.

Lemma wire_lines_cons (model : str) (max_tokens : option Z)
    (temperature : option float) (tools : list json) (tc : option dict)
    (i : nat) (messages : list dict) (rest : list (list dict)) :
  wire_lines model max_tokens temperature tools tc i (messages :: rest)
  = wire_line (uuid4 i) model messages max_tokens temperature tools tc
    :: wire_lines model max_tokens temperature tools tc (S i) rest.
Proof. reflexivity. Qed.

Lemma wire_lines_length (model : str) (max_tokens : option Z)
    (temperature : option float) (tools : list json) (tc : option dict)
    (messages_batch : list (list dict)) :
  forall i,
    List.length
      (wire_lines model max_tokens temperature tools tc i messages_batch)
    = List.length messages_batch.
Proof.
  induction messages_batch as [|m rest IH]; intros i; [reflexivity|].
  rewrite wire_lines_cons. cbn [List.length]. now rewrite IH.
Qed.



(** The record that the loop builds is the line's value. *)
Lemma dump_built_record (custom_id model : str) (messages : list dict)
    (max_tokens : option Z) (temperature : option float)
    (ts : list ToolSchema) (tc : option dict) :
  BatchModel.dump
    (BatchModel.mk custom_id
       (RequestBody.mk model messages max_tokens temperature (Some ts) tc))
  = wire_line custom_id model messages max_tokens temperature
      (List.map dump_tool ts) tc.
Proof. reflexivity. Qed.

(** One turn of the loop when the envelope is accepted. *)
Lemma write_loop_step (use_anthropic : bool) (kwargs : dict) (model : str)
    (max_tokens : option Z) (temperature : option float)
    (ts : list ToolSchema) (tc : option dict)
    (messages : list dict) (rest : list (list dict)) (n : nat) (file : str) :
  accepted kwargs ts tc ->
  sampling_accepted max_tokens temperature ->
  write_loop use_anthropic kwargs model max_tokens temperature
    (messages :: rest) n file
  = match to_json (wire_line (uuid4 n) model messages max_tokens temperature
                     (List.map dump_tool ts) tc) with
    | Raise e => (file, Raise e)
    | Ok text =>
        match file_write (text ++ [10%N]) with
        | Raise e => (file, Raise e)
        | Ok _ =>
            write_loop use_anthropic kwargs model max_tokens temperature rest
              (S n) (file ++ text ++ [10%N])
        end
    end.
Proof.
  intros Hacc Hsam. cbn [write_loop].
  rewrite (RequestBody_call_ok model messages Hacc Hsam). cbn [bind].
  unfold model_dump_json.
  destruct use_anthropic; rewrite dump_built_record; reflexivity.
Qed.


(** Whatever happens to the lines, the loop leaves in the file the lines
    of the conversations that come before the first one whose line could
    not be written, and ends exactly when there is none. *)
Lemma write_loop_prefix (use_anthropic : bool) (kwargs : dict) (model : str)
    (max_tokens : option Z) (temperature : option float)
    (ts : list ToolSchema) (tc : option dict)
    (messages_batch : list (list dict)) :
  accepted kwargs ts tc ->
  sampling_accepted max_tokens temperature ->
  forall n file,
    exists texts r,
      write_loop use_anthropic kwargs model max_tokens temperature
        messages_batch n file
      = (file ++ lines_text texts, r) /\
      Forall2 writes
        (firstn (List.length texts)
           (wire_lines model max_tokens temperature (List.map dump_tool ts)
              tc n messages_batch))
        texts /\
      ((List.length texts = List.length messages_batch /\ r = Ok tt) \/
       (exists value e,
          nth_error
            (wire_lines model max_tokens temperature (List.map dump_tool ts)
               tc n messages_batch)
            (List.length texts) = Some value /\
          (forall text, ~ writes value text) /\
          r = Raise e)).
Proof.
  intros Hacc Hsam.
  induction messages_batch as [|messages rest IH]; intros n file.
  - exists [], (Ok tt). cbn. rewrite app_nil_r.
    split; [reflexivity|]. split; [constructor|]. now left.
  - rewrite (write_loop_step _ model messages rest n file Hacc Hsam).
    rewrite wire_lines_cons.
    destruct (to_json _) as [text|e] eqn:Ejson.
    + destruct (file_write (text ++ [10%N])) as [[]|e] eqn:Ewrite.
      * destruct (IH (S n) (file ++ text ++ [10%N]))
          as (texts & r & -> & Hpre & Hend).
        exists (text :: texts), r.
        split.
        { unfold lines_text. cbn [List.map concat].
          now rewrite <- !app_assoc. }
        split; [cbn [List.length firstn]; constructor; [now split | exact Hpre]|].
        cbn [List.length nth_error].
        destruct Hend as [[Hlen ->]|(value & e & Hnth & Hno & ->)].
        -- left. now rewrite Hlen.
        -- right. now exists value, e.
      * exists [], (Raise e). rewrite app_nil_r.
        split; [reflexivity|]. split; [constructor|].
        right. eexists. exists e. split; [reflexivity|]. split; [|reflexivity].
        intros text' [Hjson Hwrite]. rewrite Ejson in Hjson.
        injection Hjson as <-. congruence.
    + exists [], (Raise e). rewrite app_nil_r.
      split; [reflexivity|]. split; [constructor|].
      right. eexists. exists e. split; [reflexivity|]. split; [|reflexivity].
      intros text' [Hjson _]. congruence.
Qed.


(** The outcome of a call whose shared keywords the envelope accepts:
    the file holds the lines of the conversations before the first one
    whose line cannot be written; the call returns when there is none and
    raises otherwise. *)
Lemma create_from_messages_prefix (messages_batch : list (list dict))
    (model : str) (response_model : RM) (max_tokens : option Z)
    (temperature : option float) (kwargs : dict) (ts : list ToolSchema)
    (tc : option dict) :
  shared_kwargs (use_anthropic_of model) response_model = Ok kwargs ->
  accepted kwargs ts tc ->
  sampling_accepted max_tokens temperature ->
  exists texts r,
    create_from_messages messages_batch model response_model max_tokens
      temperature
    = (Some (lines_text texts), r) /\
    Forall2 writes
      (firstn (List.length texts)
         (wire_lines model max_tokens temperature (List.map dump_tool ts) tc
            0 messages_batch))
      texts /\
    ((List.length texts = List.length messages_batch /\ r = Ok tt) \/
     (exists value e,
        nth_error
          (wire_lines model max_tokens temperature (List.map dump_tool ts) tc
             0 messages_batch)
          (List.length texts) = Some value /\
        (forall text, ~ writes value text) /\
        r = Raise e)).
Proof.
  intros Hkw Hacc Hsam. unfold create_from_messages. rewrite Hkw.
  destruct (write_loop_prefix (use_anthropic_of model) model messages_batch
              Hacc Hsam 0 []) as (texts & r & -> & Hpre & Hend).
  now exists texts, r.
Qed.

(** What the lines of the file are when the provider's tool objects are
    of one shape: used for each of the two providers. *)
Lemma create_from_messages_lines (messages_batch : list (list dict))
    (model : str) (response_model : RM) (max_tokens : option Z)
    (temperature : option float) (kwargs : dict) (ts : list ToolSchema)
    (tc : option dict) :
  shared_kwargs (use_anthropic_of model) response_model = Ok kwargs ->
  accepted kwargs ts tc ->
  sampling_accepted max_tokens temperature ->
  exists texts r,
    create_from_messages messages_batch model response_model max_tokens
      temperature
    = (Some (lines_text texts), r) /\
    Forall2 writes
      (firstn (List.length texts)
         (wire_lines model max_tokens temperature (List.map dump_tool ts) tc
            0 messages_batch))
      texts /\
    (r = Ok tt <-> List.length texts = List.length messages_batch) /\
    ((forall value,
        In value
          (wire_lines model max_tokens temperature (List.map dump_tool ts) tc
             0 messages_batch) ->
        exists text, writes value text) ->
     r = Ok tt).
Proof.
  intros Hkw Hacc Hsam.
  destruct (create_from_messages_prefix messages_batch model response_model
              Hkw Hacc Hsam) as (texts & r & Hfile & Hpre & Hend).
  exists texts, r. split; [exact Hfile|]. split; [exact Hpre|].
  destruct Hend as [[Hlen ->]|(value & e & Hnth & Hno & ->)].
  - split; [now split|]. reflexivity.
  - assert (Hlt : List.length texts < List.length messages_batch).
    { rewrite <- (wire_lines_length model max_tokens temperature
                    (List.map dump_tool ts) tc messages_batch 0).
      apply nth_error_Some. now rewrite Hnth. }
    split.
    + split; [discriminate | lia].
    + intros Hall. destruct (Hall value (nth_error_In _ _ Hnth)) as [text Ht].
      now destruct (Hno text).
Qed.

(** C6.  The provider is chosen by one test on the model name, a
    case-insensitive search for the marker: "claude-3-opus" passes it and
    "gpt-4o" does not.  The test selects the mode in which the shared
    keywords are derived, once.  When those hold Anthropic-shaped tool
    objects (test passed), every line in the file is the text of a record
    whose tools, all of the [AnthropicTool] variant, are written as the
    Anthropic entries of those objects: name, description and input
    schema, no function wrapper; when they hold generic tool objects
    (test failed), every line is the text of a record whose tools, all of
    the generic [Tool] variant, are written as their generic entries:
    type and, under "function", name, description and parameters.  All
    records of one file carry the same tool list.  The file holds the
    lines of the conversations up to the first whose line cannot be
    written; the call returns exactly when it holds them all, which it
    does when every line can be written. *)
Theorem provider_is_chosen_once_by_model_name
    (messages_batch : list (list dict)) (response_model : RM)
    (max_tokens : option Z) (temperature : option float) :
  sampling_accepted max_tokens temperature ->
  (forall model,
     use_anthropic_of model = true <->
     exists pre marker post,
       model = pre ++ marker ++ post /\ lower marker = lit "claude") /\
  use_anthropic_of (lit "claude-3-opus") = true /\
  use_anthropic_of (lit "gpt-4o") = false /\
  (forall model kwargs popped rest items ts tc,
     use_anthropic_of model = true ->
     handle_response_model response_model ANTHROPIC_TOOLS = Ok kwargs ->
     Dict.pop (lit "messages") kwargs = Ok (popped, rest) ->
     accepted rest ts tc ->
     Dict.get (lit "tools") rest = Some (JArr items) ->
     Forall anthropic_shaped items ->
     let tools := List.map dump_tool ts in
     let values :=
       wire_lines model max_tokens temperature tools tc 0 messages_batch
     in
       forallb is_anthropic ts = true /\
       Forall2 anthropic_entry items tools /\
       exists texts r,
         create_from_messages messages_batch model response_model max_tokens
           temperature
         = (Some (lines_text texts), r) /\
         Forall2 writes (firstn (List.length texts) values) texts /\
         (r = Ok tt <-> List.length texts = List.length messages_batch) /\
         ((forall value, In value values -> exists text, writes value text) ->
          r = Ok tt)) /\
  (forall model kwargs items ts tc,
     use_anthropic_of model = false ->
     handle_response_model response_model TOOLS = Ok kwargs ->
     accepted kwargs ts tc ->
     Dict.get (lit "tools") kwargs = Some (JArr items) ->
     Forall generic_shaped items ->
     let tools := List.map dump_tool ts in
     let values :=
       wire_lines model max_tokens temperature tools tc 0 messages_batch
     in
       forallb is_generic ts = true /\
       Forall2 generic_entry items tools /\
       exists texts r,
         create_from_messages messages_batch model response_model max_tokens
           temperature
         = (Some (lines_text texts), r) /\
         Forall2 writes (firstn (List.length texts) values) texts /\
         (r = Ok tt <-> List.length texts = List.length messages_batch) /\
         ((forall value, In value values -> exists text, writes value text) ->
          r = Ok tt)).
Proof.
  intros Hsam.
  split; [exact use_anthropic_of_spec|].
  split; [reflexivity|]. split; [reflexivity|]. split.
  - intros model kwargs popped rest items ts tc Huse Hkw Hpop Hacc Htools
      Hitems.
    cbv zeta. split; [|split].
    + destruct Hacc as (_ & Hmap & _).
      exact (@map_tools_shape anthropic_shaped is_anthropic rest items ts
               (@map_tool_anthropic) Htools Hitems Hmap).
    + destruct Hacc as (_ & Hmap & _).
      exact (@map_tools_entries anthropic_shaped anthropic_entry rest items ts
               (@map_tool_anthropic_entry) Htools Hitems Hmap).
    + eapply create_from_messages_lines; [|eassumption|assumption].
      rewrite Huse. unfold shared_kwargs. rewrite Hkw. cbn [bind].
      now rewrite Hpop.
  - intros model kwargs items ts tc Huse Hkw Hacc Htools Hitems.
    cbv zeta. split; [|split].
    + destruct Hacc as (_ & Hmap & _).
      exact (@map_tools_shape generic_shaped is_generic kwargs items ts
               (@map_tool_generic) Htools Hitems Hmap).
    + destruct Hacc as (_ & Hmap & _).
      exact (@map_tools_entries generic_shaped generic_entry kwargs items ts
               (@map_tool_generic_entry) Htools Hitems Hmap).
    + eapply create_from_messages_lines; [|eassumption|assumption].
      rewrite Huse. exact Hkw.
Qed.


(** *** What the writer leaves behind *)

(** X11.  The file is opened only after the shared keywords have been
    derived: when [handle_response_model] raises, or when the Anthropic
    mode is chosen and the keywords it returns have no "messages" entry
    to remove, the call raises (a [KeyError] in the second case) and the
    file at [file_path] is not opened, so not created or truncated. *)
Theorem no_file_when_the_keywords_fail (messages_batch : list (list dict))
    (model : str) (response_model : RM) (max_tokens : option Z)
    (temperature : option float) :
  (forall e,
     handle_response_model response_model
       (if use_anthropic_of model then ANTHROPIC_TOOLS else TOOLS) = Raise e ->
     create_from_messages messages_batch model response_model max_tokens
       temperature
     = (None, Raise e)) /\
  (forall kwargs,
     use_anthropic_of model = true ->
     handle_response_model response_model ANTHROPIC_TOOLS = Ok kwargs ->
     Dict.get (lit "messages") kwargs = None ->
     create_from_messages messages_batch model response_model max_tokens
       temperature
     = (None, Raise KeyError)).
Proof.
  split.
  - intros e He. unfold create_from_messages, shared_kwargs.
    destruct (use_anthropic_of model); now rewrite He.
  - intros kwargs Huse Hkw Hno.
    unfold create_from_messages, shared_kwargs, Dict.pop.
    rewrite Huse, Hkw. cbn [bind]. now rewrite Hno.
Qed.

(** X12.  The writer can leave a partly written file: line 185 writes
    inside the loop.  When the shared keywords are ones the envelope
    accepts, the file holds, in order, the lines of the conversations
    that come before the first one whose record cannot be serialised or
    written, each the text of that conversation's record; the call
    returns when every line was written and raises at that conversation
    otherwise, leaving the earlier lines in the file. *)
Theorem file_holds_the_lines_written_so_far
    (messages_batch : list (list dict)) (model : str) (response_model : RM)
    (max_tokens : option Z) (temperature : option float) (kwargs : dict)
    (ts : list ToolSchema) (tc : option dict) :
  shared_kwargs (use_anthropic_of model) response_model = Ok kwargs ->
  accepted kwargs ts tc ->
  sampling_accepted max_tokens temperature ->
  let values :=
    wire_lines model max_tokens temperature (List.map dump_tool ts) tc 0
      messages_batch
  in
    exists texts r,
      create_from_messages messages_batch model response_model max_tokens
        temperature
      = (Some (lines_text texts), r) /\
      Forall2 writes (firstn (List.length texts) values) texts /\
      ((List.length texts = List.length messages_batch /\ r = Ok tt) \/
       (exists value e,
          nth_error values (List.length texts) = Some value /\
          (forall text, ~ writes value text) /\
          r = Raise e)).
Proof.
  intros Hkw Hacc Hsam. cbv zeta.
  exact (create_from_messages_prefix messages_batch model response_model
           Hkw Hacc Hsam).
Qed.

(** X13.  A keyword that the call spells out must not come back among
    the shared keywords: when those hold "model", "messages",
    "max_tokens" or "temperature" (in the generic mode nothing removes
    "messages"), the call of [RequestBody] is a [TypeError], and a batch
    that is not empty makes the writer raise it and leave the file
    empty. *)
Theorem repeated_keyword_stops_the_writer (messages_batch : list (list dict))
    (model : str) (response_model : RM) (max_tokens : option Z)
    (temperature : option float) (kwargs : dict) (k : str) :
  shared_kwargs (use_anthropic_of model) response_model = Ok kwargs ->
  In k [lit "model"; lit "messages"; lit "max_tokens"; lit "temperature"] ->
  Dict.mem k kwargs = true ->
  messages_batch <> [] ->
  (forall messages,
     RequestBody_call model messages max_tokens temperature kwargs
     = Raise TypeError) /\
  create_from_messages messages_batch model response_model max_tokens
    temperature
  = (Some [], Raise TypeError).
Proof.
  intros Hkw Hin Hmem Hne.
  assert (Hcall : forall messages,
             RequestBody_call model messages max_tokens temperature kwargs
             = Raise TypeError).
  { intros messages. unfold RequestBody_call.
    change (Dict.keys (explicit_keywords model messages max_tokens
                         temperature))
      with [lit "model"; lit "messages"; lit "max_tokens"; lit "temperature"].
    assert (H : existsb (fun k => Dict.mem k kwargs)
                  [lit "model"; lit "messages"; lit "max_tokens";
                   lit "temperature"] = true)
      by (apply existsb_exists; now exists k).
    now rewrite H. }
  split; [exact Hcall|].
  unfold create_from_messages. rewrite Hkw.
  destruct messages_batch as [|messages rest]; [easy|].
  cbn [write_loop]. rewrite Hcall. cbn [bind].
  now destruct (use_anthropic_of model).
Qed.

End Writer.

(** The default arguments of [create_from_messages]. *)
Definition default_max_tokens : option Z := Some 1000%Z.
Definition default_temperature : option float := Some 1%float.

(** ** The reference writer and the reference coercions *)

Module JsonWriter.

Fixpoint uint_digits (u : Decimal.uint) : str :=
  match u with
  | Decimal.Nil => []
  | Decimal.D0 u' => 48%N :: uint_digits u'
  | Decimal.D1 u' => 49%N :: uint_digits u'
  | Decimal.D2 u' => 50%N :: uint_digits u'
  | Decimal.D3 u' => 51%N :: uint_digits u'
  | Decimal.D4 u' => 52%N :: uint_digits u'
  | Decimal.D5 u' => 53%N :: uint_digits u'
  | Decimal.D6 u' => 54%N :: uint_digits u'
  | Decimal.D7 u' => 55%N :: uint_digits u'
  | Decimal.D8 u' => 56%N :: uint_digits u'
  | Decimal.D9 u' => 57%N :: uint_digits u'
  end.

Definition N_text (n : N) : str := uint_digits (N.to_uint n).

Definition Z_text (z : Z) : str :=
  if (z <? 0)%Z then 45%N :: N_text (Z.abs_N z) else N_text (Z.abs_N z).

Fixpoint strip_zeros (rev_digits : str) : str :=
  match rev_digits with
  | 48%N :: r => strip_zeros r
  | _ => rev_digits
  end.

(** The decimal expansion of n / 10^k with at least one digit on each
    side of the point and no further zero at the end. *)
Definition decimal_text (n : N) (k : nat) : str :=
  let ds := N_text n in
  let ds := repeat 48%N (S k - List.length ds) ++ ds in
  let cut := List.length ds - k in
  let frac := rev (strip_zeros (rev (skipn cut ds))) in
  firstn cut ds ++ [46%N] ++ match frac with [] => [48%N] | _ => frac end.

(** A float by its exact decimal expansion; the non-finite ones as
    [null], which is how pydantic writes them. *)
Definition float_text (f : float) : str :=
  match Prim2SF f with
  | S754_zero s => (if s then lit "-0.0" else lit "0.0")
  | S754_infinity _ => lit "null"
  | S754_nan => lit "null"
  | S754_finite s m e =>
      (if s then [45%N] else []) ++
      if (0 <=? e)%Z then N_text (N.pos m * 2 ^ Z.to_N e) ++ lit ".0"
      else decimal_text (N.pos m * 5 ^ Z.to_N (- e)) (Z.to_nat (- e))
  end.

Definition hex_digit (n : N) : N :=
  if (n <? 10)%N then (48 + n)%N else (87 + n)%N.

Definition escape (c : N) : str :=
  if N.eqb c 34 then [92; 34]%N
  else if N.eqb c 92 then [92; 92]%N
  else if N.eqb c 8 then [92; 98]%N
  else if N.eqb c 12 then [92; 102]%N
  else if N.eqb c 10 then [92; 110]%N
  else if N.eqb c 13 then [92; 114]%N
  else if N.eqb c 9 then [92; 116]%N
  else if (c <? 32)%N then
    [92; 117; 48; 48; hex_digit (c / 16); hex_digit (c mod 16)]%N
  else [c].

Definition quoted (s : str) : str :=
  [34%N] ++ List.concat (List.map escape s) ++ [34%N].

Fixpoint join (sep : str) (parts : list str) : str :=
  match parts with
  | [] => []
  | [p] => p
  | p :: rest => p ++ sep ++ join sep rest
  end.

(** The compact JSON text of a value: no white space between tokens. *)
Fixpoint dumps (j : json) : str :=
  match j with
  | JNull => lit "null"
  | JBool true => lit "true"
  | JBool false => lit "false"
  | JInt z => Z_text z
  | JFloat f => float_text f
  | JStr s => quoted s
  | JArr l => [91%N] ++ join [44%N] (List.map dumps l) ++ [93%N]
  | JObj d =>
      [123%N] ++
      join [44%N]
        (List.map (fun kv => match kv with
                             | (k, v) => quoted k ++ [58%N] ++ dumps v
                             end) d) ++
      [125%N]
  end.

(** A surrogate code point: no text encoding holds one on its own. *)
Definition is_surrogate (c : N) : bool :=
  ((55296 <=? c) && (c <=? 57343))%N.

Definition encodable (s : str) : bool := negb (existsb is_surrogate s).

(** Every string of the value, keys included, can be encoded. *)
Fixpoint writable (j : json) : bool :=
  match j with
  | JStr s => encodable s
  | JArr l => forallb writable l
  | JObj d =>
      forallb (fun kv => match kv with
                         | (k, v) => encodable k && writable v
                         end) d
  | _ => true
  end.

(** The writer as pydantic runs it: the compact text, or its
    serialisation error, a [ValueError], on a string that holds a
    surrogate. *)
Definition to_json (j : json) : result str :=
  if writable j then Ok (dumps j) else Raise ValueError.

(** [file.write] on a UTF-8 file: the encoding error, a [ValueError], on a
    text that holds a surrogate. *)
Definition write_utf8 (text : str) : result unit :=
  if encodable text then Ok tt else Raise ValueError.

(** The coercions to [int] and [float] on the values that already have
    the field's type. *)
Definition exact_int (v : json) : option Z :=
  match v with
  | JInt z => Some z
  | _ => None
  end.

Definition exact_float (v : json) : option float :=
  match v with
  | JFloat f => Some f
  | _ => None
  end.

End JsonWriter.

(** ** A running example: one target schema, both provider modes *)

Module Example.

Import JsonText.

(** A target schema with two required fields, [name: str] and
    [age: int]. *)
Record User := mkUser { user_name : str; user_age : Z }.

Definition User_new (kw : dict) : result User :=
  match Dict.get (lit "name") kw, Dict.get (lit "age") kw with
  | Some (JStr n), Some (JInt a) => Ok (mkUser n a)
  | _, _ => Raise ValidationError
  end.

(** What the writer needs of a response model: its tool name, its
    description and its JSON schema. *)
Record Schema := mkSchema {
  schema_name : str;
  schema_description : str;
  schema_json : json
}.

Definition user_schema : Schema :=
  mkSchema (lit "User") (lit "A user record")
    (JObj [(lit "type", JStr (lit "object"));
           (lit "properties",
            JObj [(lit "name", JObj [(lit "type", JStr (lit "string"))]);
                  (lit "age", JObj [(lit "type", JStr (lit "integer"))])]);
           (lit "required", JArr [JStr (lit "name"); JStr (lit "age")])]).

(** Modelled from the spec: [handle_response_model] of
    [instructor.process_response], which the writer imports and which is
    not among the sources.  The spec describes it as the function from the
    target schema and the provider mode to the tool payload, the
    tool-choice payload and further request keywords, and gives the two
    wire shapes of a tool entry; the tool-choice objects below are one
    choice among the objects it allows.  In Anthropic mode the result
    also carries the ["messages"] entry that the writer removes. *)
Definition handle_response_model (rm : Schema) (mode : Mode) : result dict :=
  match mode with
  | TOOLS =>
      Ok [(lit "tools",
           JArr [JObj [(lit "type", JStr (lit "function"));
                       (lit "function",
                        JObj [(lit "name", JStr (schema_name rm));
                              (lit "description", JStr (schema_description rm));
                              (lit "parameters", schema_json rm)])]]);
          (lit "tool_choice",
           JObj [(lit "type", JStr (lit "function"));
                 (lit "function",
                  JObj [(lit "name", JStr (schema_name rm))])])]
  | ANTHROPIC_TOOLS =>
      Ok [(lit "tools",
           JArr [JObj [(lit "name", JStr (schema_name rm));
                       (lit "description", JStr (schema_description rm));
                       (lit "input_schema", schema_json rm)]]);
          (lit "tool_choice",
           JObj [(lit "type", JStr (lit "tool"));
                 (lit "name", JStr (schema_name rm))]);
          (lit "messages", JArr [])]
  end.

(** A source of identifiers that never repeats. *)
Definition uuid4 (n : nat) : str :=
  lit "00000000-0000-4000-8000-" ++ JsonWriter.N_text (N.of_nat n).

Definition conversation (text : string) : list dict :=
  [[(lit "role", JStr (lit "user")); (lit "content", JStr (lit text))]].

Definition create (messages_batch : list (list dict)) (model : str) :=
  create_from_messages handle_response_model uuid4 JsonWriter.to_json
    JsonWriter.write_utf8 JsonWriter.exact_int JsonWriter.exact_float
    messages_batch model user_schema default_max_tokens default_temperature.

(** A well-formed record of each provider. *)
Definition generic_line : str :=
  jtext "{'response': {'body': {'choices': [{'message': {'tool_calls': [{'function': {'arguments': '{\'name\': \'Ada\', \'age\': 36}'}}]}}]}}}".

Definition anthropic_line : str :=
  jtext "{'result': {'message': {'content': [{'text': '{\'name\': \'Bob\', \'age\': 41}'}]}}}".

Definition parse_string := parse_from_string JsonText.loads User_new.
Definition parse_file := parse_from_file JsonText.loads User_new.

End Example.

(** ** The parser on concrete batch outputs *)

Module ParserExamples.

Import JsonText Example.

Definition nl : str := [10%N].

(** A record with neither recognised key. *)
Definition other_line : str := jtext "{'error': {'code': 429}}".

Definition second_generic_line : str :=
  jtext "{'response': {'body': {'choices': [{'message': {'tool_calls': [{'function': {'arguments': '{\'name\': \'Grace\', \'age\': 45}'}}]}}]}}}".

(** A generic record whose arguments do not satisfy the schema. *)
Definition invalid_generic_line : str :=
  jtext "{'response': {'body': {'choices': [{'message': {'tool_calls': [{'function': {'arguments': '{\'name\': \'Ada\'}'}}]}}]}}}".

Definition mixed_output : str :=
  generic_line ++ nl ++ other_line ++ nl ++ second_generic_line ++ nl
  ++ invalid_generic_line ++ nl.

Definition broken_output : str :=
  generic_line ++ nl ++ lit "not json" ++ nl ++ second_generic_line.

(** A generic record whose name holds U+2028 LINE SEPARATOR, which JSON
    allows unescaped inside a string. *)
Definition separator_line : str :=
  jtext "{'response': {'body': {'choices': [{'message': {'tool_calls': [{'function': {'arguments': '{\'name\': \'Ada"
  ++ [8232%N]
  ++ jtext "Lovelace\', \'age\': 36}'}}]}}]}}}".

Definition crlf_output : str :=
  generic_line ++ [13%N; 10%N] ++ other_line ++ nl.

Ltac run_lines :=
  match goal with
  | |- context [splitlines ?s] =>
      let l := eval vm_compute in (splitlines s) in
      change (splitlines s) with l
  | |- context [file_lines ?s] =>
      let l := eval vm_compute in (file_lines s) in
      change (file_lines s) with l
  end.

(** C1.  A well-formed Anthropic record decodes, its text is there and
    satisfies the target schema, and yet both entry points put the
    record in the error list: the format test subscripts ["response"]
    first, which the record does not have, and the [KeyError] is caught
    before the Anthropic branch is reached. *)
Theorem anthropic_record_is_rejected :
  exists data text kw,
    JsonText.loads anthropic_line = Some data /\
    getpath data [K "result"; K "message"; K "content"; I0; K "text"]
      = Ok (JStr text) /\
    JsonText.loads text = Some (JObj kw) /\
    User_new kw = Ok (mkUser (lit "Bob") 41) /\
    extract JsonText.loads User_new data = Raise KeyError /\
    parse_string anthropic_line = Ok ([], [data]) /\
    parse_file anthropic_line = Ok ([], [data]).
Proof.
  do 3 eexists. split; [vm_compute; reflexivity|].
  split; [vm_compute; reflexivity|].
  split; [vm_compute; reflexivity|].
  repeat split; vm_compute; reflexivity.
Qed.

Lemma invalid_line_aborts_parse_witness :
  parse_string broken_output = Raise JSONDecodeError /\
  parse_file broken_output = Raise JSONDecodeError.
Proof.
  destruct (invalid_line_aborts_parse JsonText.loads User_new broken_output)
    as [Hstring Hfile].
  split.
  - apply (Hstring (lit "not json")); [|vm_compute; reflexivity].
    run_lines. right. left. reflexivity.
  - apply (Hfile (lit "not json" ++ nl)); [|vm_compute; reflexivity].
    run_lines. right. left. reflexivity.
Defined.

Lemma record_errors_are_isolated_witness :
  exists ada grace other invalid,
    JsonText.loads other_line = Some other /\
    JsonText.loads invalid_generic_line = Some invalid /\
    ada = mkUser (lit "Ada") 36 /\ grace = mkUser (lit "Grace") 45 /\
    parse_string mixed_output = Ok ([ada; grace], [other; invalid]) /\
    parse_file mixed_output = Ok ([ada; grace], [other; invalid]).
Proof.
  destruct (record_errors_are_isolated JsonText.loads User_new mixed_output)
    as (Hstring & Hfile & _).
  do 4 eexists.
  split; [vm_compute; reflexivity|].
  split; [vm_compute; reflexivity|].
  split; [reflexivity|]. split; [reflexivity|].
  unfold parse_string, parse_file. split.
  - erewrite Hstring by (vm_compute; reflexivity). vm_compute. reflexivity.
  - erewrite Hfile by (vm_compute; reflexivity). vm_compute. reflexivity.
Defined.

Lemma every_line_is_counted_witness :
  exists parsed errors,
    parse_string mixed_output = Ok (parsed, errors) /\
    List.length (splitlines mixed_output) = 4 /\
    List.length (file_lines mixed_output) = 4 /\
    List.length parsed = 2 /\ List.length errors = 2.
Proof.
  destruct (parse_string mixed_output) as [[parsed errors]|e] eqn:E;
    [|vm_compute in E; discriminate].
  exists parsed, errors. split; [reflexivity|].
  destruct (every_line_is_counted JsonText.loads User_new mixed_output
              parsed errors) as [Hstring Hfile].
  specialize (Hstring E).
  assert (E' : parse_file mixed_output = Ok (parsed, errors))
    by (rewrite <- E; vm_compute; reflexivity).
  specialize (Hfile E').
  vm_compute in E. injection E as <- <-.
  repeat split; try reflexivity; vm_compute; reflexivity.
Defined.

(** C9.  The two entry points do not give the same result on every
    text.  [separator_line] is one generic record with U+2028 inside the
    name: the file entry point reads it as one line and parses it; the
    string entry point, which cuts lines with [splitlines], breaks the
    same text at U+2028 and raises a decode error on the first half. *)
Lemma entry_points_disagree :
  parse_file separator_line
    = Ok ([mkUser (lit "Ada" ++ [8232%N] ++ lit "Lovelace") 36], []) /\
  parse_string separator_line = Raise JSONDecodeError.
Proof. split; vm_compute; reflexivity. Qed.

Lemma entry_points_agree_on_plain_lines_witness :
  only_newlines crlf_output = true /\
  parse_file crlf_output = parse_string crlf_output.
Proof.
  split; [vm_compute; reflexivity|].
  apply (entry_points_agree_on_plain_lines JsonText.loads User_new).
  - vm_compute. reflexivity.
  - run_lines. repeat constructor; vm_compute; reflexivity.
Defined.

End ParserExamples.

(** ** The envelope and the writer on concrete inputs *)

Module EnvelopeExamples.

Import JsonText Example.

Definition user_function : json :=
  JObj [(lit "name", JStr (lit "User"));
        (lit "description", JStr (lit "A user record"));
        (lit "parameters", schema_json user_schema)].

Definition generic_object : json :=
  JObj [(lit "type", JStr (lit "function")); (lit "function", user_function)].

Definition anthropic_object : json :=
  JObj [(lit "name", JStr (lit "User"));
        (lit "description", JStr (lit "A user record"));
        (lit "input_schema", schema_json user_schema)].

Definition generic_tool : Tool.t :=
  Tool.mk (lit "function")
    (Function.mk (lit "User") (lit "A user record") (schema_json user_schema)).

Definition anthropic_tool : AnthropicTool.t :=
  AnthropicTool.mk (lit "User") (lit "A user record")
    (schema_json user_schema).

(** The function wrapper alone, without the ["type"] that [Tool] requires. *)
Definition wrapper_without_type : json :=
  JObj [(lit "function", user_function)].

(** An input schema without the name that the Anthropic branch reads. *)
Definition schema_without_name : json :=
  JObj [(lit "description", JStr (lit "A user record"));
        (lit "input_schema", schema_json user_schema)].

Definition unknown_object : json :=
  JObj [(lit "kind", JStr (lit "retrieval"))].

Definition base_values : dict :=
  [(lit "model", JStr (lit "gpt-4o"));
   (lit "messages", JArr (List.map JObj (conversation "hello")))].

Definition new_envelope : dict -> result RequestBody.t :=
  RequestBody.new JsonWriter.exact_int JsonWriter.exact_float.

(** C5, the claim as stated fails: an object that has the function
    wrapper, with name, description and parameters inside, is not
    classified, because [Tool] also requires ["type"]; and an object that
    has ["input_schema"] and no wrapper is not classified either when it
    has no ["name"]. *)
Lemma wrapper_shape_is_not_enough :
  (exists f n d p,
     getitem wrapper_without_type (lit "function") = Ok (JObj f) /\
     Dict.get (lit "name") f = Some (JStr n) /\
     Dict.get (lit "description") f = Some (JStr d) /\
     Dict.get (lit "parameters") f = Some p) /\
  RequestBody.map_tool wrapper_without_type = Raise ValidationError /\
  contains (lit "function") schema_without_name = Ok false /\
  contains (lit "input_schema") schema_without_name = Ok true /\
  RequestBody.map_tool schema_without_name = Raise KeyError.
Proof.
  split; [do 4 eexists; repeat split; reflexivity|].
  repeat split; reflexivity.
Qed.

Lemma tool_classification_witness :
  RequestBody.map_tool generic_object = Ok (Generic generic_tool) /\
  RequestBody.map_tool anthropic_object = Ok (Anthropic anthropic_tool) /\
  RequestBody.map_tool unknown_object = Raise ValueError /\
  exists e,
    new_envelope
      (base_values
       ++ [(lit "tools", JArr [generic_object; unknown_object])])
    = Raise e.
Proof.
  destruct (tool_classification JsonWriter.exact_int JsonWriter.exact_float)
    as (Hgeneric & Hanthropic & Hunknown & Hnew).
  split; [eapply Hgeneric; reflexivity|].
  split; [eapply Hanthropic; reflexivity|].
  assert (Hraise : RequestBody.map_tool unknown_object = Raise ValueError)
    by (apply Hunknown; reflexivity).
  split; [exact Hraise|].
  apply (Hnew unknown_object ValueError _ [generic_object; unknown_object]);
    [exact Hraise | reflexivity | right; left; reflexivity].
Defined.

Lemma tools_default_is_the_empty_list_witness :
  exists rb,
    new_envelope base_values = Ok rb /\
    RequestBody.tools rb = Some [] /\
    getitem (RequestBody.dump rb) (lit "tools") = Ok (JArr []) /\
    str_in (jtext "'tools':[]") (JsonWriter.dumps (RequestBody.dump rb))
      = true /\
    new_envelope ((lit "tools", JNull) :: base_values) = Raise TypeError.
Proof.
  destruct (new_envelope base_values) as [rb|e] eqn:E;
    [|vm_compute in E; discriminate].
  exists rb. split; [reflexivity|].
  destruct (tools_default_is_the_empty_list JsonWriter.exact_int
              JsonWriter.exact_float base_values) as ((_ & _ & Hempty) & _ & _);
    [reflexivity|].
  destruct (Hempty rb E) as [Htools Hdump].
  split; [exact Htools|]. split; [exact Hdump|].
  split.
  - vm_compute in E. injection E as <-. vm_compute. reflexivity.
  - destruct (tools_default_is_the_empty_list JsonWriter.exact_int
                JsonWriter.exact_float ((lit "tools", JNull) :: base_values))
      as (_ & _ & Hnull).
    apply Hnull. reflexivity.
Defined.









End EnvelopeExamples.

Module WriterExamples.

Import JsonText Example EnvelopeExamples.

Definition three_conversations : list (list dict) :=
  [conversation "Ada is 36"; conversation "Bob is 41";
   conversation "Grace is 45"].

Definition generic_choice : dict :=
  [(lit "type", JStr (lit "function"));
   (lit "function", JObj [(lit "name", JStr (lit "User"))])].

Definition anthropic_choice : dict :=
  [(lit "type", JStr (lit "tool")); (lit "name", JStr (lit "User"))].

Definition generic_kwargs : dict :=
  [(lit "tools", JArr [generic_object]);
   (lit "tool_choice", JObj generic_choice)].

Definition anthropic_kwargs : dict :=
  [(lit "tools", JArr [anthropic_object]);
   (lit "tool_choice", JObj anthropic_choice)].

(** The values of the three lines for a model, a tool list and a tool
    choice. *)
Definition line_values (model : str) (tools : list json) (tc : dict)
    : list json :=
  wire_lines uuid4 model default_max_tokens default_temperature tools
    (Some tc) 0 three_conversations.

Definition can_write : json -> str -> Prop :=
  writes JsonWriter.to_json JsonWriter.write_utf8.


Lemma sampling_defaults :
  sampling_accepted JsonWriter.exact_int JsonWriter.exact_float
    default_max_tokens default_temperature.
Proof. split; reflexivity. Qed.

Ltac each_line_is_written :=
  let value := fresh "value" in
  let H := fresh "H" in
  intros value H;
  repeat (destruct H as [<-|H]; [eexists; split; vm_compute; reflexivity|]);
  destruct H.

Lemma provider_is_chosen_once_by_model_name_witness :
  (anthropic_entry anthropic_object anthropic_object /\
   exists texts,
     create three_conversations (lit "claude-3-opus")
     = (Some (lines_text texts), Ok tt) /\
     Forall2 can_write
       (line_values (lit "claude-3-opus") [anthropic_object] anthropic_choice)
       texts) /\
  (generic_entry generic_object generic_object /\
   exists texts,
     create three_conversations (lit "gpt-4o")
     = (Some (lines_text texts), Ok tt) /\
     Forall2 can_write
       (line_values (lit "gpt-4o") [generic_object] generic_choice) texts) /\
  use_anthropic_of (lit "Claude-3-Haiku") = true.
Proof.
  destruct (@provider_is_chosen_once_by_model_name Schema
              handle_response_model uuid4 JsonWriter.to_json
              JsonWriter.write_utf8 JsonWriter.exact_int
              JsonWriter.exact_float three_conversations user_schema
              default_max_tokens default_temperature sampling_defaults)
    as (Hspec & _ & _ & Hanthropic & Hgeneric).
  split; [|split].
  - destruct (Hanthropic (lit "claude-3-opus")
                (anthropic_kwargs ++ [(lit "messages", JArr [])]) (JArr [])
                anthropic_kwargs [anthropic_object]
                [Anthropic anthropic_tool] (Some anthropic_choice))
      as (_ & Hentries & texts & r & Hfile & Hpre & Hiff & Hall).
    + reflexivity.
    + reflexivity.
    + reflexivity.
    + repeat split; reflexivity.
    + reflexivity.
    + repeat constructor.
    + split; [now inversion Hentries|].
      assert (Hr : r = Ok tt) by (apply Hall; each_line_is_written).
      subst r. exists texts. split; [exact Hfile|].
      assert (Hlen : List.length texts = 3) by now apply Hiff.
      rewrite Hlen in Hpre. exact Hpre.
  - destruct (Hgeneric (lit "gpt-4o") generic_kwargs [generic_object]
                [Generic generic_tool] (Some generic_choice))
      as (_ & Hentries & texts & r & Hfile & Hpre & Hiff & Hall).
    + reflexivity.
    + reflexivity.
    + repeat split; reflexivity.
    + reflexivity.
    + repeat constructor.
    + split; [now inversion Hentries|].
      assert (Hr : r = Ok tt) by (apply Hall; each_line_is_written).
      subst r. exists texts. split; [exact Hfile|].
      assert (Hlen : List.length texts = 3) by now apply Hiff.
      rewrite Hlen in Hpre. exact Hpre.
  - apply Hspec. exists [], (lit "Claude"), (lit "-3-Haiku").
    split; reflexivity.
Defined.


(** A conversation whose text holds a lone surrogate, after one that can
    be written. *)
Definition surrogate_conversation : list dict :=
  [[(lit "role", JStr (lit "user"));
    (lit "content", JStr (lit "Bob is " ++ [55296%N]))]].

Definition two_conversations : list (list dict) :=
  [conversation "Ada is 36"; surrogate_conversation].


End WriterExamples.

(** ** Further runs on concrete inputs *)

Module MoreExamples.

Import JsonText Example ParserExamples EnvelopeExamples WriterExamples.

Definition ada : User := mkUser (lit "Ada") 36.
Definition grace : User := mkUser (lit "Grace") 45.
Definition bob : User := mkUser (lit "Bob") 41.

(** The decoded lines of a text, as [parse_from_string] splits it. *)
Definition decoded (content : str) : list json :=
  match decode_all JsonText.loads (splitlines content) with
  | Some ds => ds
  | None => []
  end.

Definition errors_of (content : str) : list json :=
  match parse_string content with
  | Ok (_, errors) => errors
  | Raise _ => []
  end.

Ltac run_decoded :=
  match goal with
  | |- context [decoded ?s] =>
      let l := eval vm_compute in (decoded s) in
      change (decoded s) with l
  end.

Definition generic_output : str :=
  generic_line ++ nl ++ second_generic_line ++ nl.

(** Lines that cannot be subscripted with "response": an Anthropic
    record, an error record and a list. *)
Definition responseless_output : str :=
  anthropic_line ++ nl ++ other_line ++ nl ++ lit "[1, 2]" ++ nl.

(** A record that has the message of the format test, without tool
    calls, and the text of the Anthropic shape besides. *)
Definition hybrid_line : str :=
  jtext "{'response': {'body': {'choices': [{'message': {'content': null}}]}}, 'result': {'message': {'content': [{'text': '{\'name\': \'Bob\', \'age\': 41}'}]}}}".

Lemma generic_batch_is_fully_parsed_witness :
  parse_string generic_output = Ok ([ada; grace], []) /\
  parse_file generic_output = Ok ([ada; grace], []).
Proof.
  destruct (@generic_batch_is_fully_parsed JsonText.loads User User_new
              generic_output (decoded generic_output) [ada; grace])
    as [Hstring Hfile].
  - run_decoded.
    repeat constructor; do 2 eexists; repeat split; vm_compute; reflexivity.
  - split; [apply Hstring | apply Hfile]; vm_compute; reflexivity.
Defined.

Lemma records_without_response_are_errors_witness :
  List.length (decoded responseless_output) = 3 /\
  parse_string responseless_output = Ok ([], decoded responseless_output) /\
  parse_file responseless_output = Ok ([], decoded responseless_output).
Proof.
  split; [vm_compute; reflexivity|].
  destruct (@records_without_response_are_errors JsonText.loads User
              User_new responseless_output (decoded responseless_output))
    as [Hstring Hfile].
  - run_decoded. repeat constructor; eexists; vm_compute; reflexivity.
  - split; [apply Hstring | apply Hfile]; vm_compute; reflexivity.
Defined.

Lemma fallback_batch_is_fully_parsed_witness :
  parse_string hybrid_line = Ok ([bob], []) /\
  parse_file hybrid_line = Ok ([bob], []).
Proof.
  destruct (@fallback_batch_is_fully_parsed JsonText.loads User User_new
              hybrid_line (decoded hybrid_line) [bob])
    as [Hstring Hfile].
  - run_decoded.
    repeat constructor; do 3 eexists; repeat split; vm_compute; reflexivity.
  - split; [apply Hstring | apply Hfile]; vm_compute; reflexivity.
Defined.

Lemma parser_results_come_from_the_input_witness :
  (exists line data,
     In line (splitlines mixed_output) /\
     JsonText.loads line = Some data /\
     (generic_record JsonText.loads User_new data grace \/
      fallback_record JsonText.loads User_new data grace)) /\
  List.length (errors_of mixed_output) = 2 /\
  (forall data, In data (errors_of mixed_output) ->
     exists line,
       In line (file_lines mixed_output) /\
       JsonText.loads line = Some data /\
       forall obj, ~ (generic_record JsonText.loads User_new data obj \/
                      fallback_record JsonText.loads User_new data obj)).
Proof.
  destruct (@parser_results_come_from_the_input JsonText.loads User
              User_new mixed_output [ada; grace] (errors_of mixed_output))
    as [Hstring Hfile].
  destruct Hstring as [Hparsed _]; [vm_compute; reflexivity|].
  destruct Hfile as [_ Herrors]; [vm_compute; reflexivity|].
  split; [apply Hparsed; right; left; reflexivity|].
  split; [vm_compute; reflexivity | exact Herrors].
Defined.

Lemma blank_line_aborts_parse_witness :
  parse_string (nl ++ generic_line) = Raise JSONDecodeError /\
  parse_string ((generic_line ++ nl) ++ nl ++ second_generic_line)
  = Raise JSONDecodeError /\
  parse_file (nl ++ generic_line) = Raise JSONDecodeError /\
  parse_file ((generic_line ++ nl) ++ nl ++ second_generic_line)
  = Raise JSONDecodeError.
Proof.
  destruct (@blank_line_aborts_parse JsonText.loads User User_new
              generic_line second_generic_line) as [Hstring Hfile].
  destruct Hstring as [_ Hstring]; [reflexivity|].
  destruct Hfile as [_ Hfile]; [reflexivity|].
  destruct (@blank_line_aborts_parse JsonText.loads User User_new
              generic_line generic_line) as [Hstring' Hfile'].
  destruct Hstring' as [Hstring' _]; [reflexivity|].
  destruct Hfile' as [Hfile' _]; [reflexivity|].
  repeat split; assumption.
Defined.

(** A list that mixes both shapes, and an object that has both keys. *)
Definition both_keys_object : json :=
  JObj [(lit "input_schema", schema_json user_schema);
        (lit "type", JStr (lit "function"));
        (lit "function", user_function)].

Definition mixed_tool_values : dict :=
  base_values
  ++ [(lit "tools", JArr [anthropic_object; generic_object; both_keys_object])].

Lemma tools_are_classified_in_order_witness :
  exists rb,
    new_envelope mixed_tool_values = Ok rb /\
    RequestBody.tools rb
    = Some [Anthropic anthropic_tool; Generic generic_tool;
            Generic generic_tool].
Proof.
  destruct (new_envelope mixed_tool_values) as [rb|e] eqn:E;
    [|vm_compute in E; discriminate].
  exists rb. split; [reflexivity|].
  destruct (@tools_are_classified_in_order JsonWriter.exact_int
              JsonWriter.exact_float mixed_tool_values
              [anthropic_object; generic_object; both_keys_object] rb
              eq_refl E) as (ts & -> & Hts).
  inversion Hts as [|? x1 ? ts1 [H1 _] Hts1]; subst.
  inversion Hts1 as [|? x2 ? ts2 [H2 _] Hts2]; subst.
  inversion Hts2 as [|? x3 ? ts3 [H3 _] Hts3]; subst.
  inversion Hts3; subst.
  vm_compute in H1, H2, H3.
  injection H1 as <-. injection H2 as <-. injection H3 as <-. reflexivity.
Defined.

Definition anthropic_tool_values : dict :=
  base_values ++ [(lit "tools", JArr [anthropic_object])].

Lemma built_envelope_reads_back_witness :
  exists rb text,
    new_envelope anthropic_tool_values = Ok rb /\
    new_envelope (RequestBody.fields rb) = Ok rb /\
    JsonWriter.to_json (RequestBody.dump rb) = Ok text /\
    reload JsonText.loads JsonWriter.exact_int JsonWriter.exact_float text
    = Ok rb.
Proof.
  destruct (new_envelope anthropic_tool_values) as [rb|e] eqn:E;
    [|vm_compute in E; discriminate].
  destruct (JsonWriter.to_json (RequestBody.dump rb)) as [text|e] eqn:Etext;
    [|vm_compute in E; injection E as <-; vm_compute in Etext; discriminate].
  exists rb, text. split; [reflexivity|].
  destruct (@built_envelope_reads_back JsonText.loads JsonWriter.to_json
              JsonWriter.exact_int JsonWriter.exact_float
              anthropic_tool_values rb E) as [Hfields Htext];
    [reflexivity | reflexivity |].
  split; [exact Hfields|]. split; [exact Etext|].
  apply Htext; [exact Etext|].
  vm_compute in E. injection E as <-. vm_compute in Etext.
  injection Etext as <-. vm_compute. reflexivity.
Defined.

Definition no_model_values : dict :=
  [(lit "messages", JArr (List.map JObj (conversation "hello")))].

Definition text_message_values : dict :=
  [(lit "model", JStr (lit "gpt-4o"));
   (lit "messages", JArr [JStr (lit "hello")])].

Lemma model_and_messages_are_required_witness :
  new_envelope no_model_values = Raise ValidationError /\
  new_envelope [(lit "model", JStr (lit "gpt-4o"))] = Raise ValidationError /\
  new_envelope text_message_values = Raise ValidationError.
Proof.
  split; [|split].
  - destruct (@model_and_messages_are_required JsonWriter.exact_int
                JsonWriter.exact_float no_model_values [] eq_refl)
      as (Hmodel & _ & _).
    apply Hmodel. intros s. discriminate.
  - destruct (@model_and_messages_are_required JsonWriter.exact_int
                JsonWriter.exact_float [(lit "model", JStr (lit "gpt-4o"))]
                [] eq_refl) as (_ & Hmessages & _).
    apply Hmessages. intros l. discriminate.
  - destruct (@model_and_messages_are_required JsonWriter.exact_int
                JsonWriter.exact_float text_message_values [] eq_refl)
      as (_ & _ & Hmessage).
    apply (Hmessage [JStr (lit "hello")] (JStr (lit "hello")));
      [reflexivity | now left | discriminate].
Defined.

Definition null_sampling_values : dict :=
  base_values ++ [(lit "max_tokens", JNull); (lit "temperature", JNull)].

Lemma absent_fields_take_their_defaults_witness :
  exists rb rb',
    new_envelope base_values = Ok rb /\
    RequestBody.max_tokens rb = Some 1000%Z /\
    RequestBody.temperature rb = Some 1%float /\
    RequestBody.tool_choice rb = None /\
    new_envelope null_sampling_values = Ok rb' /\
    RequestBody.max_tokens rb' = None /\
    RequestBody.temperature rb' = None.
Proof.
  destruct (new_envelope base_values) as [rb|e] eqn:E;
    [|vm_compute in E; discriminate].
  destruct (new_envelope null_sampling_values) as [rb'|e] eqn:E';
    [|vm_compute in E'; discriminate].
  exists rb, rb'.
  destruct (@absent_fields_take_their_defaults JsonWriter.exact_int
              JsonWriter.exact_float base_values rb E)
    as (Hmt & Htp & Htc & _ & _).
  destruct (@absent_fields_take_their_defaults JsonWriter.exact_int
              JsonWriter.exact_float null_sampling_values rb' E')
    as (_ & _ & _ & Hmt' & Htp').
  repeat split; auto.
Defined.

(** A collaborator that raises, one that returns the generic keywords in
    every mode (so none to remove in the Anthropic mode), and one that
    returns the Anthropic keywords, "messages" included, in every mode. *)
Definition failing_helper (rm : Schema) (mode : Mode) : result dict :=
  Raise ValueError.

Definition generic_only_helper (rm : Schema) (mode : Mode) : result dict :=
  handle_response_model rm TOOLS.

Definition anthropic_only_helper (rm : Schema) (mode : Mode) : result dict :=
  handle_response_model rm ANTHROPIC_TOOLS.

Definition create_with (helper : Schema -> Mode -> result dict)
    (model : str) : option str * result unit :=
  create_from_messages helper uuid4 JsonWriter.to_json JsonWriter.write_utf8
    JsonWriter.exact_int JsonWriter.exact_float three_conversations model
    user_schema default_max_tokens default_temperature.

Lemma no_file_when_the_keywords_fail_witness :
  create_with failing_helper (lit "gpt-4o") = (None, Raise ValueError) /\
  create_with generic_only_helper (lit "claude-3-opus")
  = (None, Raise KeyError).
Proof.
  split.
  - destruct (@no_file_when_the_keywords_fail Schema failing_helper uuid4
                JsonWriter.to_json JsonWriter.write_utf8 JsonWriter.exact_int
                JsonWriter.exact_float three_conversations (lit "gpt-4o") user_schema
                default_max_tokens default_temperature) as [Hraise _].
    apply Hraise. reflexivity.
  - destruct (@no_file_when_the_keywords_fail Schema generic_only_helper uuid4
                JsonWriter.to_json JsonWriter.write_utf8 JsonWriter.exact_int
                JsonWriter.exact_float three_conversations (lit "claude-3-opus") user_schema
                default_max_tokens default_temperature) as [_ Hpop].
    eapply Hpop; reflexivity.
Defined.

Lemma repeated_keyword_stops_the_writer_witness :
  create_with anthropic_only_helper (lit "gpt-4o")
  = (Some [], Raise TypeError).
Proof.
  edestruct (@repeated_keyword_stops_the_writer Schema anthropic_only_helper
               uuid4 JsonWriter.to_json JsonWriter.write_utf8
               JsonWriter.exact_int JsonWriter.exact_float
               three_conversations (lit "gpt-4o") user_schema default_max_tokens default_temperature
               (match handle_response_model user_schema ANTHROPIC_TOOLS with
                | Ok kw => kw
                | Raise _ => []
                end)
               (lit "messages")) as [_ Hfile].
  - reflexivity.
  - right. left. reflexivity.
  - reflexivity.
  - discriminate.
  - exact Hfile.
Defined.

Lemma file_holds_the_lines_written_so_far_witness :
  exists texts e,
    create two_conversations (lit "gpt-4o")
    = (Some (lines_text texts), Raise e) /\
    List.length texts < List.length two_conversations.
Proof.
  destruct (@file_holds_the_lines_written_so_far Schema handle_response_model
              uuid4 JsonWriter.to_json JsonWriter.write_utf8
              JsonWriter.exact_int JsonWriter.exact_float two_conversations
              (lit "gpt-4o") user_schema default_max_tokens
              default_temperature generic_kwargs [Generic generic_tool]
              (Some generic_choice))
    as (texts & r & Hfile & _ & [[_ ->]|(value & e & Hnth & _ & ->)]).
  - reflexivity.
  - repeat split; reflexivity.
  - exact sampling_defaults.
  - assert (Hc : snd (create two_conversations (lit "gpt-4o"))
                 = Raise ValueError) by (vm_compute; reflexivity).
    unfold create in Hc. rewrite Hfile in Hc. discriminate Hc.
  - exists texts, e. split; [exact Hfile|].
    assert (Hlt : List.length texts
                  < List.length
                      (wire_lines uuid4 (lit "gpt-4o") default_max_tokens
                         default_temperature
                         (List.map dump_tool [Generic generic_tool])
                         (Some generic_choice) 0 two_conversations))
      by (apply nth_error_Some; rewrite Hnth; discriminate).
    exact Hlt.
Defined.

(** A function wrapper that lacks "parameters", and an Anthropic object
    whose name is a number. *)
Definition wrapper_without_parameters : dict :=
  [(lit "type", JStr (lit "function"));
   (lit "function",
    JObj [(lit "name", JStr (lit "User"));
          (lit "description", JStr (lit "A user record"))])].

Definition nameless_schema : dict :=
  [(lit "description", JStr (lit "A user record"));
   (lit "input_schema", schema_json user_schema)].

Definition numbered_schema : dict :=
  [(lit "name", JInt 7);
   (lit "description", JStr (lit "A user record"));
   (lit "input_schema", schema_json user_schema)].

Lemma function_keyed_objects_become_tools_or_fail_witness :
  RequestBody.map_tool (JObj wrapper_without_parameters)
  = Raise ValidationError.
Proof.
  destruct (@function_keyed_objects_become_tools_or_fail
              wrapper_without_parameters
              (JObj [(lit "name", JStr (lit "User"));
                     (lit "description", JStr (lit "A user record"))])
              eq_refl)
    as [(ty & f & n & d & p & _ & Hv & _ & _ & Hp & _)|H]; [|exact H].
  injection Hv as <-. vm_compute in Hp. discriminate.
Defined.

Lemma input_schema_objects_become_anthropic_tools_or_fail_witness :
  RequestBody.map_tool (JObj nameless_schema) = Raise KeyError /\
  RequestBody.map_tool (JObj numbered_schema) = Raise ValidationError.
Proof.
  split.
  - exact (@input_schema_objects_become_anthropic_tools_or_fail
             nameless_schema (schema_json user_schema) eq_refl eq_refl).
  - exact (@input_schema_objects_become_anthropic_tools_or_fail
             numbered_schema (schema_json user_schema) eq_refl eq_refl).
Defined.

Lemma final_line_feed_is_immaterial_witness :
  removelast generic_line ++ [125%N] = generic_line /\
  parse_string ((removelast generic_line ++ [125%N]) ++ nl)
  = parse_string (removelast generic_line ++ [125%N]).
Proof.
  split; [vm_compute; reflexivity|].
  apply (@final_line_feed_is_immaterial JsonText.loads User User_new).
  reflexivity.
Defined.

End MoreExamples.
